(** * IGoRImport: translation of nucleotide sequences and the row pipeline

    A shallow embedding of [immuneML/IO/dataset_import/IGoRImport.py]:
    the codon table, [translate_sequence] and [preprocess_dataframe].

    Python values are modelled as follows.
    - [str] is [string]; [len], slicing and [in] are written out below.
    - [int] is [Z]; [%] with a positive divisor is [Z.modulo].
    - a [dict] with string keys is a [gmap string _].
    - an exception is a value of [exn]; code that can raise returns a
      [result]. *)

From Stdlib Require Import ZArith Ascii.
From Stdlib Require String.
From stdpp Require Import base option list gmap strings fin_maps.

Local Open Scope Z_scope.

(** ** Exceptions *)

Inductive exn : Type :=
  | AttributeError (name : string)
  | KeyError (key : string)
  | TypeError (what : string)
  | ValueError (what : string).

Inductive result (A : Type) : Type :=
  | Ok (a : A)
  | Raise (e : exn).

Arguments Ok {A} a.
Arguments Raise {A} e.

#[global] Instance result_ret : MRet result := fun A a => Ok a.

#[global] Instance result_bind : MBind result := fun A B f m =>
  match m with
  | Ok a => f a
  | Raise e => Raise e
  end.

(** [for x in xs: body] where the body updates a loop state and may raise. *)
Fixpoint for_loop {S A : Type} (xs : list A) (body : S -> A -> result S) (s : S)
  : result S :=
  match xs with
  | [] => Ok s
  | x :: xs' => s' ← body s x; for_loop xs' body s'
  end.

(** ** Python built-ins used by the source *)

Module Py.

(** [len(s)] *)
Definition len (s : string) : Z := Z.of_nat (String.length s).

(** The clamping of one bound of a slice [s[i:j]]: a negative bound counts
    from the end, and every bound is cut to the range [0 .. len]. *)
Definition slice_index (n i : Z) : Z :=
  if i <? 0 then Z.max 0 (i + n) else Z.min i n.

(** [s[start:stop]] *)
Definition getslice (s : string) (start stop : Z) : string :=
  let lo := slice_index (len s) start in
  let hi := slice_index (len s) stop in
  String.substring (Z.to_nat lo) (Z.to_nat (hi - lo)) s.

(** [range(start, stop, step)] for a positive [step] (the only use in the
    source is [range(0, end, 3)]): the numbers [start + k * step] below
    [stop]. *)
Definition range (start stop step : Z) : list Z :=
  let n := if start <? stop then (stop - start + step - 1) / step else 0 in
  (fun k : nat => start + Z.of_nat k * step) <$> seq 0 (Z.to_nat n).

(** [sub in s] on strings: [sub] occurs in [s] at some position. *)
Fixpoint contains (sub s : string) : bool :=
  String.prefix sub s ||
  match s with
  | EmptyString => false
  | String _ s' => contains sub s'
  end.

(** [sep.join(parts)] *)
Definition join (sep : string) (parts : list string) : string :=
  String.concat sep parts.

(** [d[key]], which raises [KeyError] on a missing key. *)
Definition getitem {V : Type} (d : gmap string V) (key : string) : result V :=
  match d !! key with
  | Some v => Ok v
  | None => Raise (KeyError key)
  end.

(** [key in d] *)
Definition has_key {V : Type} (d : gmap string V) (key : string) : bool :=
  bool_decide (is_Some (d !! key)).

End Py.

(** ** The codon table and the translator *)

(** [IGoRImport.CODON_TABLE], first as the list of its items in the order
    of the source, then as the dictionary. *)
Definition CODON_TABLE_items : list (string * string) :=
  [ ("ATA", "I"); ("ATC", "I"); ("ATT", "I"); ("ATG", "M");
    ("ACA", "T"); ("ACC", "T"); ("ACG", "T"); ("ACT", "T");
    ("AAC", "N"); ("AAT", "N"); ("AAA", "K"); ("AAG", "K");
    ("AGC", "S"); ("AGT", "S"); ("AGA", "R"); ("AGG", "R");
    ("CTA", "L"); ("CTC", "L"); ("CTG", "L"); ("CTT", "L");
    ("CCA", "P"); ("CCC", "P"); ("CCG", "P"); ("CCT", "P");
    ("CAC", "H"); ("CAT", "H"); ("CAA", "Q"); ("CAG", "Q");
    ("CGA", "R"); ("CGC", "R"); ("CGG", "R"); ("CGT", "R");
    ("GTA", "V"); ("GTC", "V"); ("GTG", "V"); ("GTT", "V");
    ("GCA", "A"); ("GCC", "A"); ("GCG", "A"); ("GCT", "A");
    ("GAC", "D"); ("GAT", "D"); ("GAA", "E"); ("GAG", "E");
    ("GGA", "G"); ("GGC", "G"); ("GGG", "G"); ("GGT", "G");
    ("TCA", "S"); ("TCC", "S"); ("TCG", "S"); ("TCT", "S");
    ("TTC", "F"); ("TTT", "F"); ("TTA", "L"); ("TTG", "L");
    ("TAC", "Y"); ("TAT", "Y"); ("TAA", "*"); ("TAG", "*");
    ("TGC", "C"); ("TGT", "C"); ("TGA", "*"); ("TGG", "W") ].

Definition CODON_TABLE : gmap string string := list_to_map CODON_TABLE_items.

Arguments CODON_TABLE : simpl never.

(** [IGoRImport.translate_sequence(nt_seq)] *)
Definition translate_sequence (nt_seq : string) : result string :=
  let end_ := Py.len nt_seq - (Py.len nt_seq `mod` 3) - 1 in
  aa_seq ← for_loop (Py.range 0 end_ 3)
    (fun aa_seq i =>
       let codon := Py.getslice nt_seq i (i + 3) in
       if Py.has_key CODON_TABLE codon then
         aminoacid ← Py.getitem CODON_TABLE codon;
         Ok (aa_seq ++ [aminoacid])
       else
         Ok (aa_seq ++ ["_"]))
    [];
  Ok (Py.join "" aa_seq).

(** ** pandas: the part of [DataFrame] the pipeline uses

    A cell holds a string or an integer, or is missing (pandas' NaN), which
    is [None]. A row maps column names to its cells; the table keeps the
    ordered list of its column names next to the rows. *)

Inductive value : Type :=
  | VStr (s : string)
  | VInt (z : Z).

#[global] Instance value_eq_dec : EqDecision value.
Proof. solve_decision. Defined.

Abbreviation cell := (option value) (only parsing).
Abbreviation row := (gmap string value) (only parsing).

Record DataFrame : Type := {
  columns : list string;
  rows : list (gmap string value)
}.

Module Pd.

(** [name in df.columns] *)
Definition has_column (df : DataFrame) (name : string) : bool :=
  bool_decide (name ∈ columns df).

(** [df.name]: the column as a series, [AttributeError] if there is none. *)
Definition getattr (df : DataFrame) (name : string) : result (list cell) :=
  if has_column df name then Ok ((fun r : row => r !! name) <$> rows df)
  else Raise (AttributeError name).

(** [df[key]]: the column as a series, [KeyError] if there is none. *)
Definition getitem (df : DataFrame) (key : string) : result (list cell) :=
  if has_column df key then Ok ((fun r : row => r !! key) <$> rows df)
  else Raise (KeyError key).

(** Writing one cell of a row; writing NaN leaves the cell missing. *)
Definition set_cell (key : string) (c : cell) (r : row) : row :=
  partial_alter (fun _ => c) key r.

Definition add_column (cols : list string) (key : string) : list string :=
  if bool_decide (key ∈ cols) then cols else cols ++ [key].

(** [df[key] = series]: a new column goes last, an old one is overwritten. *)
Definition setitem (df : DataFrame) (key : string) (series : list cell)
  : DataFrame :=
  {| columns := add_column (columns df) key;
     rows := zip_with (set_cell key) series (rows df) |}.

(** [df[key] = scalar]: the column, old or new, holds the scalar in every
    row; on a table without rows the column is there and empty. *)
Definition setitem_scalar (df : DataFrame) (key : string) (v : value)
  : DataFrame :=
  {| columns := add_column (columns df) key;
     rows := set_cell key (Some v) <$> rows df |}.

(** [df[mask]] for a list of booleans: the rows whose flag is true, in
    their order. *)
Definition boolean_index (df : DataFrame) (mask : list bool) : DataFrame :=
  {| columns := columns df;
     rows := fst <$> filter (fun rb : row * bool => snd rb = true)
                            (zip (rows df) mask) |}.

(** [df[key]] for a Python list of booleans as long as the table. pandas
    takes the list for a row mask when it has an element, and for a list
    of column names when it is empty: [df[[]]] keeps the index and drops
    every column. *)
Definition getitem_list (df : DataFrame) (key : list bool) : DataFrame :=
  match key with
  | [] => {| columns := []; rows := (fun _ => ∅) <$> rows df |}
  | _ :: _ => boolean_index df key
  end.

Definition no_index_message : string :=
  "cannot set a frame with no defined index and a scalar".

(** [df.loc[:, key] = scalar]. It writes the column, old or new, but a
    new column cannot be added to a table without rows: pandas raises
    [ValueError] (cannot set a frame with no defined index and a
    scalar). *)
Definition loc_setitem_scalar (df : DataFrame) (key : string) (v : value)
  : result DataFrame :=
  match rows df with
  | [] =>
      if has_column df key then Ok (setitem_scalar df key v)
      else Raise (ValueError no_index_message)
  | _ :: _ => Ok (setitem_scalar df key v)
  end.

(** [series == scalar], element by element. *)
Definition eq_scalar (series : list cell) (v : value) : list bool :=
  (fun c : cell => bool_decide (c = Some v)) <$> series.

(** [series.apply(f)] and a list comprehension over a series: [f] runs on
    the cells in order, the first exception ends the run. *)
Definition apply {B : Type} (f : cell -> result B) (series : list cell)
  : result (list B) :=
  mapM f series.

(** [series.str[start:stop]]: NaN wherever the cell is not a string. *)
Definition str_getslice (start stop : Z) (c : cell) : cell :=
  match c with
  | Some (VStr s) => Some (VStr (Py.getslice s start stop))
  | _ => None
  end.

End Pd.

(** ** Declarations the source imports *)

(** Modelled from the spec: the [RegionType] enum is declared in
    [immuneML/data_model/receptor/RegionType.py]; the pipeline reads a
    member's [name] and compares members, so a member is its name. *)
Record RegionType : Type := { name : string }.

#[global] Instance RegionType_eq_dec : EqDecision RegionType.
Proof. solve_decision. Defined.

Definition IMGT_CDR3 : RegionType := {| name := "IMGT_CDR3" |}.
Definition IMGT_JUNCTION : RegionType := {| name := "IMGT_JUNCTION" |}.

(** Modelled from the spec: [DatasetImportParams] is declared in
    [immuneML/IO/dataset_import/DatasetImportParams.py]; these are the
    fields [preprocess_dataframe] reads. *)
Record DatasetImportParams : Type := {
  import_with_stop_codon : bool;
  import_out_of_frame : bool;
  import_illegal_characters : bool;
  import_empty_nt_sequences : bool;
  region_type : RegionType
}.

(** The defaults listed in the class docstring. *)
Definition default_params : DatasetImportParams :=
  {| import_with_stop_codon := false;
     import_out_of_frame := false;
     import_illegal_characters := false;
     import_empty_nt_sequences := true;
     region_type := IMGT_CDR3 |}.

(** Modelled from the spec: the sequence type the surrounding system is
    set to (a global setting read by the illegal-character filter). *)
Inductive SequenceType : Type := AMINO_ACID | NUCLEOTIDE.

(** The helpers of [ImportHelper] change the table they are given in place
    and the pipeline goes on with that same table; here each helper returns
    the table it leaves behind. *)
Module ImportHelper.

(** Modelled from the spec: [ImportHelper.junction_to_cdr3] lives in
    [immuneML/util/ImportHelper.py]. For the region type [IMGT_CDR3] it
    strips one residue at each end of the junction: the first and last
    amino acid of [sequence_aas] and the first and last codon of
    [sequences]; for any other region type the sequences stay as they
    are. *)
Definition junction_to_cdr3 (df : DataFrame) (region_type : RegionType)
  : DataFrame :=
  if bool_decide (region_type = IMGT_CDR3) then
    let trim (r : row) : row :=
      Pd.set_cell "sequences"
        (Pd.str_getslice 3 (-3) (r !! "sequences"))
        (Pd.set_cell "sequence_aas"
           (Pd.str_getslice 1 (-1) (r !! "sequence_aas")) r) in
    {| columns := columns df; rows := trim <$> rows df |}
  else df.

Definition is_empty (c : cell) : bool :=
  bool_decide (c = Some (VStr "") ∨ c = None).

(** Modelled from the spec: [ImportHelper.drop_empty_sequences] lives in
    [immuneML/util/ImportHelper.py]. The two flags are
    [import_empty_aa_sequences] and [import_empty_nt_sequences] (the
    names the caller's comment and the class docstring use): rows with
    an empty sequence of a kind are dropped unless the flag of that kind
    is true. *)
Definition drop_empty_sequences (df : DataFrame)
    (import_empty_aa_sequences import_empty_nt_sequences : bool)
  : DataFrame :=
  let keep (r : row) : bool :=
    (import_empty_aa_sequences || negb (is_empty (r !! "sequence_aas"))) &&
    (import_empty_nt_sequences || negb (is_empty (r !! "sequences"))) in
  {| columns := columns df;
     rows := filter (fun r => keep r = true) (rows df) |}.

(** Modelled from the spec: the alphabet of a sequence type, the
    nucleotides or the 20 amino acids and the stop symbol. *)
Definition alphabet (sequence_type : SequenceType) : string :=
  match sequence_type with
  | AMINO_ACID => "ACDEFGHIKLMNPQRSTVWY*"
  | NUCLEOTIDE => "ACGT"
  end.

Definition sequence_column (sequence_type : SequenceType) : string :=
  match sequence_type with
  | AMINO_ACID => "sequence_aas"
  | NUCLEOTIDE => "sequences"
  end.

Definition is_legal (sequence_type : SequenceType) (c : cell) : bool :=
  match c with
  | Some (VStr s) =>
      forallb (fun ch => bool_decide (ch ∈ String.list_ascii_of_string
                                              (alphabet sequence_type)))
              (String.list_ascii_of_string s)
  | _ => true
  end.

(** Modelled from the spec: [ImportHelper.drop_illegal_character_sequences]
    lives in [immuneML/util/ImportHelper.py]. Unless illegal characters
    are imported, it drops the rows whose sequence of the active type has
    a character outside that type's alphabet. *)
Definition drop_illegal_character_sequences (sequence_type : SequenceType)
    (df : DataFrame) (import_illegal_characters : bool) : DataFrame :=
  if import_illegal_characters then df
  else
    {| columns := columns df;
       rows := filter (fun r : row =>
                 is_legal sequence_type
                   (r !! sequence_column sequence_type) = true)
                 (rows df) |}.

End ImportHelper.

(** ** The row pipeline *)

(** [translate_sequence] on a cell: [len] raises on a value that is not a
    string. *)
Definition translate_cell (c : cell) : result cell :=
  match c with
  | Some (VStr s) => aa ← translate_sequence s; Ok (Some (VStr aa))
  | _ => Raise (TypeError "len")
  end.

(** ["*" not in seq] on a cell: [in] raises on a value that is not a
    string. *)
Definition no_stop_cell (c : cell) : result bool :=
  match c with
  | Some (VStr s) => Ok (negb (Py.contains "*" s))
  | _ => Raise (TypeError "in")
  end.

(** [IGoRImport.preprocess_dataframe(df, params)]. The sequence type is the
    global setting the illegal-character filter reads. The first statement
    adds the [counts] column to the caller's table, every later one works
    on a table of the pipeline's own; the properties below are about the
    table returned. When no row is left, [df[no_stop_codon]] is [df[[]]]
    and the assignment to [region_types] raises unless the column is
    there already. *)
Definition preprocess_dataframe (sequence_type : SequenceType)
    (df : DataFrame) (params : DatasetImportParams) : result DataFrame :=
  let df :=
    if negb (Pd.has_column df "counts")
    then Pd.setitem_scalar df "counts" (VInt 1) else df in
  anchors_found ← Pd.getattr df "anchors_found";
  let df := Pd.boolean_index df (Pd.eq_scalar anchors_found (VStr "1")) in
  df ← (if negb (import_out_of_frame params) then
          is_inframe ← Pd.getattr df "is_inframe";
          Ok (Pd.boolean_index df (Pd.eq_scalar is_inframe (VStr "1")))
        else Ok df);
  sequences ← Pd.getitem df "sequences";
  sequence_aas ← Pd.apply translate_cell sequences;
  let df := Pd.setitem df "sequence_aas" sequence_aas in
  df ← (if negb (import_with_stop_codon params) then
          seqs ← Pd.getattr df "sequence_aas";
          no_stop_codon ← Pd.apply no_stop_cell seqs;
          Ok (Pd.getitem_list df no_stop_codon)
        else Ok df);
  let df := ImportHelper.junction_to_cdr3 df (region_type params) in
  df ← Pd.loc_setitem_scalar df "region_types"
         (VStr (name (region_type params)));
  let df := ImportHelper.drop_empty_sequences df true
              (import_empty_nt_sequences params) in
  let df := ImportHelper.drop_illegal_character_sequences sequence_type df
              (import_illegal_characters params) in
  Ok df.

(** The two-row table of the examples. *)
Definition example_row_stop : gmap string value :=
  {[ "anchors_found" := VStr "1"; "is_inframe" := VStr "1";
     "sequences" := VStr "ATGAAATAG" ]}.

Definition example_row_no_anchor : gmap string value :=
  {[ "anchors_found" := VStr "0"; "is_inframe" := VStr "1";
     "sequences" := VStr "ATGAAA" ]}.

Definition example_table : DataFrame :=
  {| columns := ["anchors_found"; "is_inframe"; "sequences"];
     rows := [example_row_stop; example_row_no_anchor] |}.

(** The columns of every result for a table with these three columns. *)
Definition example_out_columns : list string :=
  ["anchors_found"; "is_inframe"; "sequences"; "counts"; "sequence_aas";
   "region_types"].

(** ** Reference definitions for the translator *)

(** The residue a codon stands for: its table entry, or the placeholder. *)
Definition residue (codon : string) : string :=
  default "_" (CODON_TABLE !! codon).

(** The codon that starts at position [3 * k]. *)
Definition codon_at (nt_seq : string) (k : Z) : string :=
  Py.getslice nt_seq (k * 3) (k * 3 + 3).

(** Translation three characters at a time. *)
Fixpoint translation (s : string) : string :=
  match s with
  | String a (String b (String c rest)) =>
      residue (String a (String b (String c ""))) +:+ translation rest
  | _ => ""
  end.

(** The standard genetic code in its compact tabular form: the residues of
    the 64 triplets over T, C, A, G, the first base varying slowest. It is
    written down independently of [CODON_TABLE], to be compared with it. *)
Definition standard_bases : list ascii := ["T"; "C"; "A"; "G"]%char.

Definition standard_residues : string :=
  "FFLLSSSSYY**CC*WLLLLPPPPHHQQRRRRIIIMTTTTNNKKSSRRVVVVAAAADDEEGGGG".

Definition standard_genetic_code : list (string * string) :=
  zip
    (b1 ← standard_bases; b2 ← standard_bases; b3 ← standard_bases;
     [String b1 (String b2 (String b3 ""))])
    ((fun ch => String ch "") <$> String.list_ascii_of_string standard_residues).

(** The symbols a translation is made of: the 20 amino acids, the stop
    symbol and the placeholder. *)
Definition residue_symbols : list ascii :=
  String.list_ascii_of_string "ACDEFGHIKLMNPQRSTVWY*_".

Definition is_residue_symbol (v : string) : bool :=
  match v with
  | String ch "" => bool_decide (ch ∈ residue_symbols)
  | _ => false
  end.

#[global] Instance exn_eq_dec : EqDecision exn.
Proof. solve_decision. Defined.

#[global] Instance result_eq_dec `{EqDecision A} : EqDecision (result A).
Proof. solve_decision. Defined.

(** ** Reference definitions for the row pipeline

    What the pipeline does to the rows, stage by stage, as plain functions
    on lists of rows; [preprocess_dataframe_eq] below proves that the
    pipeline computes exactly this. *)

Definition has_counts (df : DataFrame) : bool := Pd.has_column df "counts".

Definition default_counts_row (has : bool) (r : row) : row :=
  if has then r else Pd.set_cell "counts" (Some (VInt 1)) r.

Definition anchors_ok (r : row) : bool :=
  bool_decide (r !! "anchors_found" = Some (VStr "1")).

Definition inframe_ok (r : row) : bool :=
  bool_decide (r !! "is_inframe" = Some (VStr "1")).

Definition has_nt_string (r : row) : bool :=
  match r !! "sequences" with
  | Some (VStr _) => true
  | _ => false
  end.

Definition aa_cell (c : cell) : cell :=
  match c with
  | Some (VStr s) => Some (VStr (translation s))
  | _ => None
  end.

Definition translate_row (r : row) : row :=
  Pd.set_cell "sequence_aas" (aa_cell (r !! "sequences")) r.

Definition stop_free (r : row) : bool :=
  match r !! "sequence_aas" with
  | Some (VStr s) => negb (Py.contains "*" s)
  | _ => true
  end.

Definition trim_row (rt : RegionType) (r : row) : row :=
  if bool_decide (rt = IMGT_CDR3) then
    Pd.set_cell "sequences"
      (Pd.str_getslice 3 (-3) (r !! "sequences"))
      (Pd.set_cell "sequence_aas"
         (Pd.str_getslice 1 (-1) (r !! "sequence_aas")) r)
  else r.

Definition region_row (rt : RegionType) (r : row) : row :=
  Pd.set_cell "region_types" (Some (VStr (name rt))) r.

Definition nonempty_ok (params : DatasetImportParams) (r : row) : bool :=
  import_empty_nt_sequences params
  || negb (ImportHelper.is_empty (r !! "sequences")).

Definition legal_ok (st : SequenceType) (params : DatasetImportParams)
    (r : row) : bool :=
  import_illegal_characters params
  || ImportHelper.is_legal st (r !! ImportHelper.sequence_column st).

(** The rows the translation stage sees: after the anchor filter and the
    frame filter. *)
Definition selected (params : DatasetImportParams) (has : bool)
    (l : list row) : list row :=
  let l := filter (fun r => anchors_ok r = true) (default_counts_row has <$> l) in
  if import_out_of_frame params then l
  else filter (fun r => inframe_ok r = true) l.

Definition pipeline_rows (st : SequenceType) (params : DatasetImportParams)
    (has : bool) (l : list row) : list row :=
  let l := translate_row <$> selected params has l in
  let l := if import_with_stop_codon params then l
           else filter (fun r => stop_free r = true) l in
  let l := region_row (region_type params)
             <$> (trim_row (region_type params) <$> l) in
  let l := filter (fun r => nonempty_ok params r = true) l in
  filter (fun r => legal_ok st params r = true) l.

Definition out_columns (cols : list string) : list string :=
  Pd.add_column
    (Pd.add_column (Pd.add_column cols "counts") "sequence_aas")
    "region_types".

(** What becomes of one row: the row it is turned into, or [None] when a
    filter drops it. *)
Definition row_outcome (st : SequenceType) (params : DatasetImportParams)
    (has : bool) (r : row) : option row :=
  head (pipeline_rows st params has [r]).

(** The row a surviving row is turned into. *)
Definition finish_row (params : DatasetImportParams) (has : bool) (r : row)
  : row :=
  region_row (region_type params)
    (trim_row (region_type params)
       (translate_row (default_counts_row has r))).

(** Whether a row passes the filters; [check_stop] says whether the
    stop-codon filter is among them. *)
Definition passes_filters (st : SequenceType) (params : DatasetImportParams)
    (has check_stop : bool) (r : row) : bool :=
  anchors_ok (default_counts_row has r)
  && (import_out_of_frame params || inframe_ok (default_counts_row has r))
  && (negb check_stop || stop_free (translate_row (default_counts_row has r)))
  && nonempty_ok params (finish_row params has r)
  && legal_ok st params (finish_row params has r).

(** ** Tables and configurations of the examples *)

Definition params_with_stop_codon (rt : RegionType) : DatasetImportParams :=
  {| import_with_stop_codon := true;
     import_out_of_frame := false;
     import_illegal_characters := false;
     import_empty_nt_sequences := true;
     region_type := rt |}.

(** One row whose nucleotide sequence is shorter than a codon. *)
Definition short_table : DataFrame :=
  {| columns := ["anchors_found"; "is_inframe"; "sequences"];
     rows :=
       [ {[ "anchors_found" := VStr "1"; "is_inframe" := VStr "1";
            "sequences" := VStr "AT" ]} ] |}.

(** One junction of five codons (C A S S F). *)
Definition junction_table : DataFrame :=
  {| columns := ["anchors_found"; "is_inframe"; "sequences"];
     rows :=
       [ {[ "anchors_found" := VStr "1"; "is_inframe" := VStr "1";
            "sequences" := VStr "TGTGCCAGCAGCTTT" ]} ] |}.

(** A table that comes with a [counts] column. *)
Definition counted_row : gmap string value :=
  {[ "anchors_found" := VStr "1"; "is_inframe" := VStr "1";
     "sequences" := VStr "TGTGCCAGCAGCTTT"; "counts" := VInt 5 ]}.

Definition counted_table : DataFrame :=
  {| columns := ["anchors_found"; "is_inframe"; "sequences"; "counts"];
     rows := [counted_row] |}.

(** A table without the [is_inframe] column. *)
Definition frameless_table : DataFrame :=
  {| columns := ["anchors_found"; "sequences"];
     rows :=
       [ {[ "anchors_found" := VStr "1";
            "sequences" := VStr "TGTGCCAGCAGCTTT" ]} ] |}.

Definition params_out_of_frame : DatasetImportParams :=
  {| import_with_stop_codon := false;
     import_out_of_frame := true;
     import_illegal_characters := false;
     import_empty_nt_sequences := true;
     region_type := IMGT_CDR3 |}.

(** The cells of a column in a result, for reading off examples. *)
Definition result_column (key : string) (res : result DataFrame)
  : result (list cell) :=
  df ← res; Ok ((fun r : row => r !! key) <$> rows df).

(** What the first row of the example table becomes when stop codons are
    imported and the rest of the configuration is the default one. *)
Definition example_row_stop_out : gmap string value :=
  {[ "anchors_found" := VStr "1"; "is_inframe" := VStr "1";
     "sequences" := VStr "AAA"; "counts" := VInt 1;
     "sequence_aas" := VStr "K"; "region_types" := VStr "IMGT_CDR3" ]}.

(** What the row of [counted_table] becomes under the default
    configuration. *)
Definition counted_row_out : gmap string value :=
  {[ "anchors_found" := VStr "1"; "is_inframe" := VStr "1";
     "sequences" := VStr "GCCAGCAGC"; "counts" := VInt 5;
     "sequence_aas" := VStr "ASS"; "region_types" := VStr "IMGT_CDR3" ]}.

(** What the row of [junction_table] becomes under the default
    configuration. *)
Definition junction_row_out : gmap string value :=
  {[ "anchors_found" := VStr "1"; "is_inframe" := VStr "1";
     "sequences" := VStr "GCCAGCAGC"; "counts" := VInt 1;
     "sequence_aas" := VStr "ASS"; "region_types" := VStr "IMGT_CDR3" ]}.

(** What the row of [junction_table] becomes when the region type is the
    junction itself. *)
Definition junction_row_kept : gmap string value :=
  {[ "anchors_found" := VStr "1"; "is_inframe" := VStr "1";
     "sequences" := VStr "TGTGCCAGCAGCTTT"; "counts" := VInt 1;
     "sequence_aas" := VStr "CASSF"; "region_types" := VStr "IMGT_JUNCTION" ]}.

Definition params_junction : DatasetImportParams :=
  {| import_with_stop_codon := false;
     import_out_of_frame := false;
     import_illegal_characters := false;
     import_empty_nt_sequences := true;
     region_type := IMGT_JUNCTION |}.

(** What the row of [short_table] becomes under the default
    configuration. *)
Definition short_row_out : gmap string value :=
  {[ "anchors_found" := VStr "1"; "is_inframe" := VStr "1";
     "sequences" := VStr ""; "counts" := VInt 1;
     "sequence_aas" := VStr ""; "region_types" := VStr "IMGT_CDR3" ]}.

(** ** Reference definitions for further properties of the translator *)

(** The three triplets the codon table maps to the stop symbol. *)
Definition stop_codons : list string := ["TAA"; "TAG"; "TGA"].

(** The four letters the keys of the codon table are made of. *)
Definition nucleotides : list ascii := ["A"; "C"; "G"; "T"]%char.

(** A string of exactly three of these letters. *)
Definition is_nt_codon (codon : string) : bool :=
  match codon with
  | String a (String b (String c "")) =>
      bool_decide (a ∈ nucleotides) && bool_decide (b ∈ nucleotides)
      && bool_decide (c ∈ nucleotides)
  | _ => false
  end.

(** ** Reference definitions for further properties of the pipeline *)

(** A row the translation stage reaches: it passes the anchor filter and,
    when out-of-frame sequences are not imported, the frame filter. *)
Definition needs_translation (params : DatasetImportParams) (r : row) : bool :=
  anchors_ok r && (import_out_of_frame params || inframe_ok r).

(** A selected row that the stop-codon filter lets through. *)
Definition stop_codon_ok (params : DatasetImportParams) (r : row) : bool :=
  import_with_stop_codon params || stop_free (translate_row r).

(** A row that is still in the table when [region_types] is assigned. *)
Definition row_kept (params : DatasetImportParams) (r : row) : bool :=
  needs_translation params r && stop_codon_ok params r.

Definition is_nil {A : Type} (l : list A) : bool :=
  match l with
  | [] => true
  | _ :: _ => false
  end.

(** The rows in the table after the stop-codon filter. *)
Definition kept_rows (params : DatasetImportParams) (has : bool)
    (l : list row) : list row :=
  let l := translate_row <$> selected params has l in
  if import_with_stop_codon params then l
  else filter (fun r => stop_free r = true) l.

(** Whether the assignment to [region_types] raises: no row is left, and
    the column is not there, be it that the input had none or that
    [df[[]]] has dropped every column. *)
Definition empty_frame_error (params : DatasetImportParams) (has : bool)
    (cols : list string) (l : list row) : bool :=
  is_nil (kept_rows params has l)
  && (negb (bool_decide ("region_types" ∈ cols))
      || (negb (import_with_stop_codon params)
          && is_nil (selected params has l))).

(** The configuration with [import_with_stop_codon] set to [b]. *)
Definition with_stop_codon (b : bool) (params : DatasetImportParams)
  : DatasetImportParams :=
  {| import_with_stop_codon := b;
     import_out_of_frame := import_out_of_frame params;
     import_illegal_characters := import_illegal_characters params;
     import_empty_nt_sequences := import_empty_nt_sequences params;
     region_type := region_type params |}.

(** A table that has every column, with one row that passes the anchor and
    frame filters but has no nucleotide string. *)
Definition nan_selected_row : gmap string value :=
  {[ "anchors_found" := VStr "1"; "is_inframe" := VStr "1" ]}.

Definition nan_selected_table : DataFrame :=
  {| columns := ["anchors_found"; "is_inframe"; "sequences"];
     rows := [nan_selected_row] |}.

(** The row of [junction_table], the same row with an amino-acid sequence
    and a region type already filled in, and the tables that hold them. *)
Definition junction_row : gmap string value :=
  {[ "anchors_found" := VStr "1"; "is_inframe" := VStr "1";
     "sequences" := VStr "TGTGCCAGCAGCTTT" ]}.

Definition stale_row : gmap string value :=
  <[ "sequence_aas" := VStr "WRONG" ]>
    (<[ "region_types" := VStr "FULL_SEQUENCE" ]> junction_row).

Definition derived_columns : list string :=
  ["anchors_found"; "is_inframe"; "sequences"; "sequence_aas"; "region_types"].

(** A stop-free junction followed by the first row of the example table. *)
Definition mixed_table : DataFrame :=
  {| columns := ["anchors_found"; "is_inframe"; "sequences"];
     rows := [junction_row; example_row_stop] |}.

(** Two rows that agree on every column but the two the pipeline derives. *)
Definition same_input (r1 r2 : gmap string value) : Prop :=
  forall k : string,
    k <> "sequence_aas" -> k <> "region_types" -> r1 !! k = r2 !! k.

(** The configuration with [import_out_of_frame] set to [b]. *)
Definition with_out_of_frame (b : bool) (params : DatasetImportParams)
  : DatasetImportParams :=
  {| import_with_stop_codon := import_with_stop_codon params;
     import_out_of_frame := b;
     import_illegal_characters := import_illegal_characters params;
     import_empty_nt_sequences := import_empty_nt_sequences params;
     region_type := region_type params |}.

(** A junction that is in frame followed by one that is not. *)
Definition framed_table : DataFrame :=
  {| columns := ["anchors_found"; "is_inframe"; "sequences"];
     rows :=
       [ junction_row;
         {[ "anchors_found" := VStr "1"; "is_inframe" := VStr "0";
            "sequences" := VStr "TGTGCCAGCAGCTT" ]} ] |}.

Definition out_of_frame_row_out : gmap string value :=
  {[ "anchors_found" := VStr "1"; "is_inframe" := VStr "0";
     "sequences" := VStr "GCCAGCAG"; "counts" := VInt 1;
     "sequence_aas" := VStr "AS"; "region_types" := VStr "IMGT_CDR3" ]}.

(** A row whose nucleotide sequence is shorter than a codon, after a
    junction, and the configuration that does not import empty nucleotide
    sequences. *)
Definition short_row : gmap string value :=
  {[ "anchors_found" := VStr "1"; "is_inframe" := VStr "1";
     "sequences" := VStr "AT" ]}.

Definition short_and_junction_table : DataFrame :=
  {| columns := ["anchors_found"; "is_inframe"; "sequences"];
     rows := [junction_row; short_row] |}.

Definition params_no_empty_nt : DatasetImportParams :=
  {| import_with_stop_codon := false;
     import_out_of_frame := false;
     import_illegal_characters := false;
     import_empty_nt_sequences := false;
     region_type := IMGT_CDR3 |}.

(** * Properties *)

(** ** Facts about the Python built-ins *)

Lemma bind_Ok {A B : Type} (a : A) (f : A -> result B) : (Ok a ≫= f) = f a.
Proof. reflexivity. Qed.

Section py_facts.

Lemma string_ind3 (P : string -> Prop) :
  P "" ->
  (forall a, P (String a "")) ->
  (forall a b, P (String a (String b ""))) ->
  (forall a b c rest, P rest -> P (String a (String b (String c rest)))) ->
  forall s, P s.
Proof.
  intros H0 H1 H2 H3.
  assert (Hall : forall s, P s /\ (forall a, P (String a s))
                           /\ (forall a b, P (String a (String b s)))).
  { induction s as [|c s (IH0 & IH1 & IH2)]; [by auto|].
    split_and!; [apply IH1 | intros; apply IH2 | intros; by apply H3]. }
  intros s. apply Hall.
Qed.

Lemma len_nonneg s : 0 <= Py.len s.
Proof. unfold Py.len. lia. Qed.

Lemma len_String a s : Py.len (String a s) = Py.len s + 1.
Proof. unfold Py.len. simpl. lia. Qed.

Lemma range_codons n :
  0 <= n ->
  Py.range 0 (n - n `mod` 3 - 1) 3
  = (fun k : nat => 0 + Z.of_nat k * 3) <$> seq 0 (Z.to_nat (n / 3)).
Proof.
  intros Hn. unfold Py.range. f_equal. f_equal. f_equal.
  pose proof (Z.div_mod n 3 ltac:(lia)) as Hdm.
  pose proof (Z.mod_pos_bound n 3 ltac:(lia)) as Hm.
  destruct (Z.ltb_spec 0 (n - n `mod` 3 - 1)) as [Hlt|Hge].
  - symmetry. apply Z.div_unique with (r := 1); lia.
  - assert (n / 3 <= 0) by lia. lia.
Qed.

Lemma join_cons x xs : Py.join "" (x :: xs) = x +:+ Py.join "" xs.
Proof.
  unfold Py.join. destruct xs as [|y ys]; simpl; [|done].
  induction x as [|a x IH]; [done|].
  change (String a x +:+ "") with (String a (x +:+ "")). congruence.
Qed.


Lemma slice_index_in n i : 0 <= i <= n -> Py.slice_index n i = i.
Proof.
  intros Hi. unfold Py.slice_index.
  destruct (Z.ltb_spec i 0); lia.
Qed.

Lemma getslice_head a b c rest :
  Py.getslice (String a (String b (String c rest))) 0 3
  = String a (String b (String c "")).
Proof.
  unfold Py.getslice. rewrite !len_String.
  pose proof (len_nonneg rest).
  rewrite !slice_index_in by lia. simpl. by destruct rest.
Qed.

Lemma getslice_skip3 a b c rest i :
  0 <= i -> i + 3 <= Py.len rest ->
  Py.getslice (String a (String b (String c rest))) (i + 3) (i + 3 + 3)
  = Py.getslice rest i (i + 3).
Proof.
  intros Hi Hle. unfold Py.getslice. rewrite !len_String.
  rewrite !slice_index_in by lia.
  replace (Z.to_nat (i + 3)) with (S (S (S (Z.to_nat i)))) by lia.
  simpl. f_equal. lia.
Qed.

End py_facts.

(** ** The translator *)

Section translator.

Lemma codon_body_ok nt_seq (aa_seq : list string) i :
  (let codon := Py.getslice nt_seq i (i + 3) in
   if Py.has_key CODON_TABLE codon then
     aminoacid ← Py.getitem CODON_TABLE codon;
     Ok (aa_seq ++ [aminoacid])
   else
     Ok (aa_seq ++ ["_"]))
  = Ok (aa_seq ++ [residue (Py.getslice nt_seq i (i + 3))]).
Proof.
  cbv zeta. unfold Py.has_key, Py.getitem, residue.
  destruct (CODON_TABLE !! Py.getslice nt_seq i (i + 3)) as [v|] eqn:Hv.
  - rewrite bool_decide_eq_true_2 by eauto. done.
  - rewrite bool_decide_eq_false_2 by (intros [? ?]; done). done.
Qed.

Lemma codon_loop nt_seq (xs : list Z) (acc : list string) :
  for_loop xs
    (fun aa_seq i =>
       let codon := Py.getslice nt_seq i (i + 3) in
       if Py.has_key CODON_TABLE codon then
         aminoacid ← Py.getitem CODON_TABLE codon;
         Ok (aa_seq ++ [aminoacid])
       else
         Ok (aa_seq ++ ["_"]))
    acc
  = Ok (acc ++ ((fun i => residue (Py.getslice nt_seq i (i + 3))) <$> xs)).
Proof.
  revert acc. induction xs as [|x xs IH]; intros acc; cbn [for_loop].
  - by rewrite fmap_nil, app_nil_r.
  - rewrite codon_body_ok, bind_Ok, IH, fmap_cons.
    by rewrite <- app_assoc.
Qed.

(** The loop visits the codons [0 .. len // 3 - 1] and appends the residue
    of each. *)
Lemma translate_sequence_codons nt_seq :
  translate_sequence nt_seq
  = Ok (Py.join ""
          ((fun k : nat => residue (codon_at nt_seq (Z.of_nat k)))
             <$> seq 0 (Z.to_nat (Py.len nt_seq / 3)))).
Proof.
  unfold translate_sequence. cbv zeta.
  rewrite codon_loop, bind_Ok, app_nil_l.
  rewrite range_codons by apply len_nonneg.
  rewrite <- list_fmap_compose. done.
Qed.

Lemma codons_translation s :
  Py.join ""
    ((fun k : nat => residue (codon_at s (Z.of_nat k)))
       <$> seq 0 (Z.to_nat (Py.len s / 3)))
  = translation s.
Proof.
  induction s as [| a | a b | a b c rest IH] using string_ind3; try done.
  rewrite !len_String.
  pose proof (len_nonneg rest) as Hn.
  replace (Py.len rest + 1 + 1 + 1) with (1 * 3 + Py.len rest) by lia.
  rewrite Z.div_add_l by lia.
  assert (0 <= Py.len rest / 3) by (apply Z.div_pos; lia).
  replace (Z.to_nat (1 + Py.len rest / 3))
    with (S (Z.to_nat (Py.len rest / 3))) by lia.
  cbn [seq fmap list_fmap]. rewrite <- fmap_S_seq, <- list_fmap_compose.
  rewrite join_cons. cbn [translation]. f_equal.
  - unfold codon_at. by rewrite getslice_head.
  - rewrite <- IH. f_equal. apply list_fmap_ext.
    intros i k Hk. apply lookup_seq in Hk as [-> Hlt]. simpl.
    unfold codon_at. f_equal.
    replace (Z.of_nat (S i) * 3) with (Z.of_nat i * 3 + 3) by lia.
    apply getslice_skip3; [lia|].
    pose proof (Z.mul_div_le (Py.len rest) 3 ltac:(lia)). lia.
Qed.

(** [translate_sequence] never raises and computes [translation]. *)
Lemma translate_sequence_translation nt_seq :
  translate_sequence nt_seq = Ok (translation nt_seq).
Proof. by rewrite translate_sequence_codons, codons_translation. Qed.

End translator.


Section table.

Lemma CODON_TABLE_items_symbols :
  Forall (fun kv : string * string => is_residue_symbol kv.2 = true)
         CODON_TABLE_items.
Proof. apply (bool_decide_unpack _). by vm_compute. Qed.

Lemma residue_symbol codon :
  exists ch, residue codon = String ch "" /\ ch ∈ residue_symbols.
Proof.
  unfold residue.
  destruct (CODON_TABLE !! codon) as [v|] eqn:Hv; simpl.
  - apply elem_of_list_to_map_2 in Hv.
    pose proof CODON_TABLE_items_symbols as Hall.
    rewrite Forall_forall in Hall. specialize (Hall _ Hv). simpl in Hall.
    destruct v as [|ch [|]]; try done.
    exists ch. split; [done|]. by apply bool_decide_eq_true in Hall.
  - exists "_"%char. split; [done|]. by apply (bool_decide_unpack _).
Qed.

Lemma translation_step a b c rest :
  exists ch, ch ∈ residue_symbols /\
    translation (String a (String b (String c rest)))
    = String ch (translation rest).
Proof.
  destruct (residue_symbol (String a (String b (String c "")))) as (ch & Hr & Hch).
  exists ch. split; [done|]. cbn [translation]. by rewrite Hr.
Qed.

Lemma translation_len s : Py.len (translation s) = Py.len s / 3.
Proof.
  induction s as [| a | a b | a b c rest IH] using string_ind3; try done.
  destruct (translation_step a b c rest) as (ch & _ & ->).
  rewrite !len_String, IH.
  replace (Py.len rest + 1 + 1 + 1) with (1 * 3 + Py.len rest) by lia.
  rewrite Z.div_add_l by lia. lia.
Qed.

Lemma translation_drop_tail s tail :
  Py.len s `mod` 3 = 0 -> Py.len tail < 3 ->
  translation (s +:+ tail) = translation s.
Proof.
  intros Hs Htail.
  induction s as [| a | a b | a b c rest IH] using string_ind3.
  - change ("" +:+ tail) with tail.
    destruct tail as [|x [|y [|z tail]]]; try done.
    rewrite !len_String in Htail. pose proof (len_nonneg tail). lia.
  - by vm_compute in Hs.
  - by vm_compute in Hs.
  - change (String a (String b (String c rest)) +:+ tail)
      with (String a (String b (String c (rest +:+ tail)))).
    cbn [translation]. rewrite IH; [done|].
    rewrite !len_String in Hs.
    replace (Py.len rest + 1 + 1 + 1) with (Py.len rest + 1 * 3) in Hs by lia.
    by rewrite Z.mod_add in Hs by lia.
Qed.

Lemma translation_symbols s :
  Forall (fun ch => ch ∈ residue_symbols)
         (String.list_ascii_of_string (translation s)).
Proof.
  induction s as [| a | a b | a b c rest IH] using string_ind3;
    try by constructor.
  destruct (translation_step a b c rest) as (ch & Hch & ->).
  simpl. by constructor.
Qed.

Lemma join_singletons_at (l : list string) (k : nat) x :
  Forall (fun y => String.length y = 1%nat) l ->
  l !! k = Some x ->
  String.substring k 1 (Py.join "" l) = x.
Proof.
  intros Hall. revert k.
  induction Hall as [|y l Hy Hall IH]; intros k Hk; [done|].
  rewrite join_cons.
  destruct y as [|ch [|]]; try done.
  change (String ch "" +:+ Py.join "" l) with (String ch (Py.join "" l)).
  destruct k as [|k]; simpl in *.
  - inversion Hk; subst. by destruct (Py.join "" l).
  - by apply IH.
Qed.

End table.

(** C1. For each of the 64 triplets of the standard genetic code,
    [translate_sequence] returns the residue that code assigns to it; the
    codon table of the source has exactly these 64 entries; and the
    triplets TAA, TAG and TGA give the stop symbol. *)
Theorem translate_sequence_standard_code :
  length standard_genetic_code = 64%nat /\
  NoDup (standard_genetic_code.*1) /\
  Forall (fun ca : string * string => translate_sequence ca.1 = Ok ca.2)
         standard_genetic_code /\
  CODON_TABLE = list_to_map standard_genetic_code /\
  translate_sequence "TAA" = Ok "*" /\
  translate_sequence "TAG" = Ok "*" /\
  translate_sequence "TGA" = Ok "*".
Proof.
  split_and!.
  - vm_compute; reflexivity.
  - apply (bool_decide_unpack _); vm_compute; exact I.
  - apply (bool_decide_unpack _); vm_compute; exact I.
  - apply (bool_decide_unpack _); vm_compute; exact I.
  - vm_compute; reflexivity.
  - vm_compute; reflexivity.
  - vm_compute; reflexivity.
Qed.

(** C2. The translation of [s] has length [len(s) // 3]: the codons are the
    consecutive triplets from the left, one residue each; one or two
    characters left after the last full triplet do not change the result;
    and the empty string translates to the empty string. *)
Theorem translate_sequence_length :
  (forall s : string,
     translate_sequence s = Ok (translation s) /\
     Py.len (translation s) = Py.len s / 3) /\
  (forall s tail : string,
     Py.len s `mod` 3 = 0 -> Py.len tail < 3 ->
     translate_sequence (s +:+ tail) = translate_sequence s) /\
  translate_sequence "" = Ok "".
Proof.
  split_and!.
  - intros s. split; [apply translate_sequence_translation | apply translation_len].
  - intros s tail Hs Htail. rewrite !translate_sequence_translation.
    by rewrite translation_drop_tail.
  - vm_compute. reflexivity.
Qed.

Lemma translate_sequence_length_witness :
  Py.len "ATGAAA" `mod` 3 = 0 /\ Py.len "TA" < 3 /\
  translate_sequence ("ATGAAA" +:+ "TA") = translate_sequence "ATGAAA".
Proof.
  assert (H1 : Py.len "ATGAAA" `mod` 3 = 0) by (vm_compute; reflexivity).
  assert (H2 : Py.len "TA" < 3) by (vm_compute; reflexivity).
  split_and!; [exact H1 | exact H2 |].
  exact (proj1 (proj2 translate_sequence_length) "ATGAAA" "TA" H1 H2).
Defined.

(** C3. A full codon that is not a key of the codon table is translated
    to the placeholder and nothing is raised: the residue at position [k]
    of the result is ["_"] whenever the [k]-th codon is not in the table.
    In particular ["ATGNNN"] translates to ["M_"]. *)
Theorem translate_sequence_unknown_codon :
  (forall (s : string) (k : Z),
     0 <= k < Py.len s / 3 ->
     CODON_TABLE !! codon_at s k = None ->
     exists out, translate_sequence s = Ok out /\
                 Py.getslice out k (k + 1) = "_") /\
  translate_sequence "ATGNNN" = Ok "M_".
Proof.
  split; [|by vm_compute].
  intros s k Hk Hnone.
  exists (translation s). split; [apply translate_sequence_translation|].
  unfold Py.getslice. rewrite translation_len, !slice_index_in by lia.
  replace (Z.to_nat (k + 1 - k)) with 1%nat by lia.
  rewrite <- codons_translation.
  apply join_singletons_at.
  - apply Forall_fmap, Forall_forall. intros i _. unfold compose.
    by destruct (residue_symbol (codon_at s (Z.of_nat i))) as (ch & -> & _).
  - rewrite list_lookup_fmap.
    rewrite (lookup_seq_lt _ _ (Z.to_nat k)) by lia.
    cbn [fmap option_fmap option_map Nat.add]. rewrite Z2Nat.id by lia.
    unfold residue. by rewrite Hnone.
Qed.

Lemma translate_sequence_unknown_codon_witness :
  0 <= 1 < Py.len "ATGNNN" / 3 /\
  CODON_TABLE !! codon_at "ATGNNN" 1 = None /\
  exists out, translate_sequence "ATGNNN" = Ok out /\
              Py.getslice out 1 (1 + 1) = "_".
Proof.
  assert (H1 : 0 <= 1 < Py.len "ATGNNN" / 3) by (by vm_compute).
  assert (H2 : CODON_TABLE !! codon_at "ATGNNN" 1 = None) by (by vm_compute).
  split_and!; [apply H1 | apply H1 | apply H2 |].
  exact (proj1 translate_sequence_unknown_codon "ATGNNN" 1 H1 H2).
Defined.

(** C10. [translate_sequence] returns a string on every input, never an
    exception, and the string is made of the 20 amino-acid letters, the
    stop symbol and the placeholder only. *)
Theorem translate_sequence_total (s : string) :
  exists out, translate_sequence s = Ok out /\
    Forall (fun ch => ch ∈ residue_symbols) (String.list_ascii_of_string out).
Proof.
  exists (translation s).
  split; [apply translate_sequence_translation | apply translation_symbols].
Qed.

(** ** pandas facts *)

Section pandas_facts.

Lemma elem_of_add_column (cols : list string) (key x : string) :
  x ∈ Pd.add_column cols key <-> x = key \/ x ∈ cols.
Proof.
  unfold Pd.add_column. case_bool_decide as Hk.
  - split; [by right|]. intros [->|]; done.
  - rewrite elem_of_app, list_elem_of_singleton. tauto.
Qed.

Lemma add_column_present (cols : list string) (key : string) :
  key ∈ cols -> Pd.add_column cols key = cols.
Proof. intros Hk. unfold Pd.add_column. by rewrite bool_decide_eq_true_2. Qed.

Lemma lookup_set_cell (key : string) (c : cell) (r : row) (k : string) :
  Pd.set_cell key c r !! k = if decide (key = k) then c else r !! k.
Proof.
  unfold Pd.set_cell. destruct (decide (key = k)) as [->|Hne].
  - by rewrite lookup_partial_alter_eq.
  - by rewrite lookup_partial_alter_ne.
Qed.

Lemma set_cell_same (key : string) (c : cell) (r : row) :
  r !! key = c -> Pd.set_cell key c r = r.
Proof.
  intros <-. apply map_eq. intros k. rewrite lookup_set_cell.
  by destruct (decide (key = k)) as [->|].
Qed.

(** A mask computed row by row selects like [filter]. *)
Lemma boolean_index_fmap {A : Type} (h : A -> gmap string value)
    (g : A -> bool) (l : list A) :
  fst <$> filter (fun rb : gmap string value * bool => snd rb = true)
                 (zip (h <$> l) (g <$> l))
  = h <$> filter (fun x => g x = true) l.
Proof.
  induction l as [|x l IH]; [done|].
  cbn [fmap list_fmap zip zip_with]. rewrite !filter_cons. cbn [snd].
  destruct (g x); repeat case_decide; try done.
  cbn [fmap list_fmap fst]. f_equal. apply IH.
Qed.

Lemma rows_boolean_index cols (l : list (gmap string value)) (g : gmap string value -> bool) :
  Pd.boolean_index {| columns := cols; rows := l |} (g <$> l)
  = {| columns := cols; rows := filter (fun r => g r = true) l |}.
Proof.
  unfold Pd.boolean_index. cbn [columns rows]. f_equal.
  rewrite <- (list_fmap_id l) at 1. rewrite boolean_index_fmap.
  by rewrite list_fmap_id.
Qed.

Lemma filter_fmap {A B : Type} (f : A -> B) (p : B -> bool) (l : list A) :
  filter (fun y => p y = true) (f <$> l)
  = f <$> filter (fun x => p (f x) = true) l.
Proof.
  induction l as [|x l IH]; [done|].
  cbn [fmap list_fmap]. rewrite !filter_cons, IH.
  by destruct (decide (p (f x) = true)).
Qed.

Lemma filter_bool_ext {A : Type} (p q : A -> bool) (l : list A) :
  (forall x, x ∈ l -> p x = q x) ->
  filter (fun x => p x = true) l = filter (fun x => q x = true) l.
Proof.
  intros Hpq. induction l as [|x l IH]; [done|].
  rewrite !filter_cons, IH by (intros; apply Hpq; by right).
  rewrite (Hpq x) by (by left). done.
Qed.

Lemma zip_with_series {A B C : Type} (f : B -> A -> C) (h : A -> B) (l : list A) :
  zip_with f (h <$> l) l = (fun x => f (h x) x) <$> l.
Proof. induction l as [|x l IH]; [done|]. cbn. by rewrite IH. Qed.

Lemma apply_translate_cell (cells : list cell) :
  Pd.apply translate_cell cells
  = if forallb (fun c => match c with Some (VStr _) => true | _ => false end) cells
    then Ok (aa_cell <$> cells)
    else Raise (TypeError "len").
Proof.
  unfold Pd.apply.
  induction cells as [|c cells IH]; [done|].
  cbn [mapM forallb fmap list_fmap]. rewrite IH.
  destruct c as [[s|z]|]; try done.
  cbn [translate_cell]. rewrite translate_sequence_translation, !bind_Ok.
  cbn [andb]. by destruct (forallb _ cells).
Qed.

Lemma apply_no_stop_cell (cells : list cell) :
  Pd.apply no_stop_cell (aa_cell <$> cells)
  = if forallb (fun c => match c with Some (VStr _) => true | _ => false end) cells
    then Ok ((fun c => match aa_cell c with
                       | Some (VStr s) => negb (Py.contains "*" s)
                       | _ => true
                       end) <$> cells)
    else Raise (TypeError "in").
Proof.
  unfold Pd.apply.
  induction cells as [|c cells IH]; [done|].
  cbn [mapM forallb fmap list_fmap]. rewrite IH.
  destruct c as [[s|z]|]; try done.
  cbn [aa_cell no_stop_cell]. rewrite !bind_Ok.
  cbn [andb]. by destruct (forallb _ cells).
Qed.

End pandas_facts.

(** ** The pipeline in closed form *)

Section pipeline.

Context (st : SequenceType) (params : DatasetImportParams).

Lemma getattr_record cols (l : list (gmap string value)) (name : string) :
  Pd.getattr {| columns := cols; rows := l |} name
  = if bool_decide (name ∈ cols) then Ok ((fun r : gmap string value => r !! name) <$> l)
    else Raise (AttributeError name).
Proof. reflexivity. Qed.

Lemma getitem_record cols (l : list (gmap string value)) (key : string) :
  Pd.getitem {| columns := cols; rows := l |} key
  = if bool_decide (key ∈ cols) then Ok ((fun r : gmap string value => r !! key) <$> l)
    else Raise (KeyError key).
Proof. reflexivity. Qed.

Lemma default_counts_record cols (l : list (gmap string value)) :
  (if negb (Pd.has_column {| columns := cols; rows := l |} "counts")
   then Pd.setitem_scalar {| columns := cols; rows := l |} "counts" (VInt 1)
   else {| columns := cols; rows := l |})
  = {| columns := Pd.add_column cols "counts";
       rows := default_counts_row (bool_decide ("counts" ∈ cols)) <$> l |}.
Proof.
  unfold Pd.has_column, Pd.setitem_scalar. cbn [columns rows].
  destruct (bool_decide_reflect ("counts" ∈ cols)) as [Hc|Hc]; cbn [negb default_counts_row].
  - rewrite add_column_present by done. by rewrite list_fmap_id.
  - done.
Qed.

Lemma bool_decide_add_column (cols : list string) (key x : string) :
  x ≠ key ->
  bool_decide (x ∈ Pd.add_column cols key) = bool_decide (x ∈ cols).
Proof.
  intros Hne. apply bool_decide_ext. rewrite elem_of_add_column.
  split; [intros [?|?]; done | by right].
Qed.

Lemma mask_eq_scalar cols (l : list (gmap string value)) (name : string) (v : value) :
  Pd.boolean_index {| columns := cols; rows := l |}
    (Pd.eq_scalar ((fun r : gmap string value => r !! name) <$> l) v)
  = {| columns := cols;
       rows := filter (fun r => bool_decide (r !! name = Some v) = true) l |}.
Proof.
  unfold Pd.eq_scalar. rewrite <- list_fmap_compose.
  by rewrite rows_boolean_index.
Qed.

Lemma stage_frame cols (l : list (gmap string value)) :
  (if negb (import_out_of_frame params) then
     is_inframe ← Pd.getattr {| columns := cols; rows := l |} "is_inframe";
     Ok (Pd.boolean_index {| columns := cols; rows := l |}
           (Pd.eq_scalar is_inframe (VStr "1")))
   else Ok {| columns := cols; rows := l |})
  = if negb (import_out_of_frame params)
       && negb (bool_decide ("is_inframe" ∈ cols))
    then Raise (AttributeError "is_inframe")
    else Ok {| columns := cols;
               rows := if import_out_of_frame params then l
                       else filter (fun r => inframe_ok r = true) l |}.
Proof.
  destruct (import_out_of_frame params); cbn [negb andb]; [done|].
  rewrite getattr_record.
  destruct (bool_decide ("is_inframe" ∈ cols)); cbn [negb]; [|done].
  by rewrite bind_Ok, mask_eq_scalar.
Qed.

Lemma forallb_cells (l : list (gmap string value)) :
  forallb (fun c : option value => match c with Some (VStr _) => true | _ => false end)
          ((fun r : gmap string value => r !! "sequences") <$> l)
  = forallb has_nt_string l.
Proof. induction l as [|r l IH]; [done|]. cbn. by rewrite IH. Qed.

Lemma stage_translate cols (l : list (gmap string value))
    (k : list (option value) -> result DataFrame) :
  (sequences ← Pd.getitem {| columns := cols; rows := l |} "sequences";
   sequence_aas ← Pd.apply translate_cell sequences;
   k sequence_aas)
  = if negb (bool_decide ("sequences" ∈ cols)) then Raise (KeyError "sequences")
    else if forallb has_nt_string l then
      k (aa_cell <$> ((fun r : gmap string value => r !! "sequences") <$> l))
    else Raise (TypeError "len").
Proof.
  rewrite getitem_record.
  destruct (bool_decide ("sequences" ∈ cols)); cbn [negb]; [|done].
  rewrite bind_Ok, apply_translate_cell, forallb_cells.
  by destruct (forallb has_nt_string l).
Qed.

Lemma setitem_translate cols (l : list (gmap string value)) :
  Pd.setitem {| columns := cols; rows := l |} "sequence_aas"
    (aa_cell <$> ((fun r : gmap string value => r !! "sequences") <$> l))
  = {| columns := Pd.add_column cols "sequence_aas";
       rows := translate_row <$> l |}.
Proof.
  unfold Pd.setitem. cbn [columns rows].
  by rewrite <- list_fmap_compose, zip_with_series.
Qed.

Lemma stage_stop_codon cols (l : list (gmap string value)) :
  forallb has_nt_string l = true ->
  "sequence_aas" ∈ cols ->
  (if negb (import_with_stop_codon params) then
     seqs ← Pd.getattr {| columns := cols; rows := translate_row <$> l |}
               "sequence_aas";
     no_stop_codon ← Pd.apply no_stop_cell seqs;
     Ok (Pd.getitem_list {| columns := cols; rows := translate_row <$> l |}
           no_stop_codon)
   else Ok {| columns := cols; rows := translate_row <$> l |})
  = Ok {| columns := if negb (import_with_stop_codon params) && is_nil l
                     then [] else cols;
          rows := if import_with_stop_codon params then translate_row <$> l
                  else filter (fun r => stop_free r = true)
                              (translate_row <$> l) |}.
Proof.
  intros Hstr Hcol.
  destruct (import_with_stop_codon params); cbn [negb andb]; [done|].
  rewrite getattr_record, bool_decide_eq_true_2, bind_Ok by done.
  rewrite <- list_fmap_compose.
  rewrite (list_fmap_ext _ (aa_cell ∘ (fun r : gmap string value => r !! "sequences")) l)
    by (intros i r _; unfold compose, translate_row;
        rewrite lookup_set_cell; by rewrite decide_True).
  rewrite list_fmap_compose, apply_no_stop_cell, forallb_cells, Hstr, bind_Ok.
  rewrite <- list_fmap_compose.
  destruct l as [|r l]; [done|].
  cbn [is_nil]. rewrite fmap_cons. unfold Pd.getitem_list.
  rewrite <- !fmap_cons.
  unfold Pd.boolean_index. cbn [columns rows]. f_equal. f_equal.
  rewrite boolean_index_fmap, filter_fmap. f_equal.
  apply filter_bool_ext. intros r' _. unfold compose, stop_free, translate_row.
  rewrite lookup_set_cell, decide_True by done. done.
Qed.

Lemma is_nil_fmap {A B : Type} (f : A -> B) (l : list A) :
  is_nil (f <$> l) = is_nil l.
Proof. by destruct l. Qed.

Lemma loc_setitem_scalar_record cols (l : list (gmap string value))
    (key : string) (v : value) :
  Pd.loc_setitem_scalar {| columns := cols; rows := l |} key v
  = if is_nil l && negb (bool_decide (key ∈ cols))
    then Raise (ValueError Pd.no_index_message)
    else Ok {| columns := Pd.add_column cols key;
               rows := Pd.set_cell key (Some v) <$> l |}.
Proof.
  unfold Pd.loc_setitem_scalar, Pd.has_column. cbn [columns rows].
  destruct l as [|r l]; cbn [is_nil andb]; [|done].
  by destruct (bool_decide (key ∈ cols)).
Qed.

Lemma junction_to_cdr3_record cols (l : list (gmap string value)) rt :
  ImportHelper.junction_to_cdr3 {| columns := cols; rows := l |} rt
  = {| columns := cols; rows := trim_row rt <$> l |}.
Proof.
  unfold ImportHelper.junction_to_cdr3, trim_row. cbn [columns rows].
  destruct (bool_decide (rt = IMGT_CDR3)); [done|].
  by rewrite list_fmap_id.
Qed.

Lemma drop_empty_sequences_record cols (l : list (gmap string value)) :
  ImportHelper.drop_empty_sequences {| columns := cols; rows := l |} true
    (import_empty_nt_sequences params)
  = {| columns := cols;
       rows := filter (fun r => nonempty_ok params r = true) l |}.
Proof. reflexivity. Qed.

Lemma drop_illegal_record cols (l : list (gmap string value)) :
  ImportHelper.drop_illegal_character_sequences st
    {| columns := cols; rows := l |} (import_illegal_characters params)
  = {| columns := cols;
       rows := filter (fun r => legal_ok st params r = true) l |}.
Proof.
  unfold ImportHelper.drop_illegal_character_sequences, legal_ok.
  destruct (import_illegal_characters params); cbn [orb columns rows]; [|done].
  f_equal. symmetry. induction l as [|r l IH]; [done|].
  rewrite filter_cons, decide_True by done. by rewrite IH.
Qed.

(** [preprocess_dataframe] raises exactly when a column it reads is
    missing, a selected row has no nucleotide string, or no row is left
    for a [region_types] column that is not there; otherwise it returns
    the table of [pipeline_rows]. *)
Lemma preprocess_dataframe_eq (df : DataFrame) :
  preprocess_dataframe st df params =
    if negb (bool_decide ("anchors_found" ∈ columns df)) then
      Raise (AttributeError "anchors_found")
    else if negb (import_out_of_frame params)
            && negb (bool_decide ("is_inframe" ∈ columns df)) then
      Raise (AttributeError "is_inframe")
    else if negb (bool_decide ("sequences" ∈ columns df)) then
      Raise (KeyError "sequences")
    else if forallb has_nt_string (selected params (has_counts df) (rows df)) then
      if empty_frame_error params (has_counts df) (columns df) (rows df) then
        Raise (ValueError Pd.no_index_message)
      else
        Ok {| columns := out_columns (columns df);
              rows := pipeline_rows st params (has_counts df) (rows df) |}
    else Raise (TypeError "len").
Proof.
  destruct df as [cols l]. unfold preprocess_dataframe, has_counts.
  rewrite default_counts_record. cbn [columns rows].
  unfold Pd.has_column. cbn [columns].
  set (has := bool_decide ("counts" ∈ cols)).
  rewrite getattr_record, bool_decide_add_column by discriminate.
  destruct (bool_decide ("anchors_found" ∈ cols)); cbn [negb]; [|done].
  rewrite bind_Ok, mask_eq_scalar, stage_frame.
  rewrite bool_decide_add_column by discriminate.
  destruct (negb (import_out_of_frame params)
            && negb (bool_decide ("is_inframe" ∈ cols))); [done|].
  change (if import_out_of_frame params then _ else _)
    with (selected params has l).
  rewrite bind_Ok, stage_translate.
  rewrite bool_decide_add_column by discriminate.
  destruct (bool_decide ("sequences" ∈ cols)); cbn [negb]; [|done].
  destruct (forallb has_nt_string (selected params has l)) eqn:Hstr; [|done].
  rewrite setitem_translate.
  rewrite stage_stop_codon; [|done|apply elem_of_add_column; by left].
  rewrite bind_Ok, junction_to_cdr3_record, loc_setitem_scalar_record.
  rewrite is_nil_fmap.
  change (if import_with_stop_codon params
          then translate_row <$> selected params has l
          else filter _ (translate_row <$> selected params has l))
    with (kept_rows params has l).
  unfold empty_frame_error.
  destruct (is_nil (kept_rows params has l)) eqn:Hkept; cbn [andb].
  - destruct (import_with_stop_codon params) eqn:Hflag; cbn [negb andb orb].
    + rewrite !bool_decide_add_column by discriminate.
      rewrite orb_false_r.
      destruct (bool_decide ("region_types" ∈ cols)); cbn [negb]; [|done].
      rewrite bind_Ok, drop_empty_sequences_record, drop_illegal_record.
      reflexivity.
    + destruct (is_nil (selected params has l)) eqn:Hsel.
      * by rewrite orb_true_r.
      * rewrite !bool_decide_add_column by discriminate.
        rewrite orb_false_r.
        destruct (bool_decide ("region_types" ∈ cols)); cbn [negb]; [|done].
        rewrite bind_Ok, drop_empty_sequences_record, drop_illegal_record.
        reflexivity.
  - assert (negb (import_with_stop_codon params)
            && is_nil (selected params has l) = false) as ->.
    { destruct (import_with_stop_codon params); [done|]. cbn [negb andb].
      unfold kept_rows in Hkept.
      destruct (selected params has l); [|done].
      by destruct (import_with_stop_codon params). }
    rewrite bind_Ok, drop_empty_sequences_record, drop_illegal_record.
    reflexivity.
Qed.

End pipeline.

(** ** The pipeline row by row *)

Section rows.

Context (st : SequenceType) (params : DatasetImportParams) (has : bool).

Lemma filter_single {A : Type} (p : A -> bool) (x : A) :
  filter (fun y => p y = true) [x] = if p x then [x] else [].
Proof.
  rewrite filter_cons, filter_nil.
  destruct (p x); by case_decide.
Qed.

Lemma selected_app (l1 l2 : list (gmap string value)) :
  selected params has (l1 ++ l2)
  = selected params has l1 ++ selected params has l2.
Proof.
  unfold selected. rewrite fmap_app, filter_app.
  destruct (import_out_of_frame params); [done|]. by rewrite filter_app.
Qed.

Lemma pipeline_rows_app (l1 l2 : list (gmap string value)) :
  pipeline_rows st params has (l1 ++ l2)
  = pipeline_rows st params has l1 ++ pipeline_rows st params has l2.
Proof.
  unfold pipeline_rows. rewrite selected_app, fmap_app.
  destruct (import_with_stop_codon params);
    by rewrite ?filter_app, !fmap_app, !filter_app.
Qed.

Lemma pipeline_rows_single (r : gmap string value) :
  pipeline_rows st params has [r]
  = if passes_filters st params has (negb (import_with_stop_codon params)) r
    then [finish_row params has r] else [].
Proof.
  unfold pipeline_rows, selected, passes_filters, finish_row.
  cbn [fmap list_fmap]. rewrite filter_single.
  destruct (anchors_ok (default_counts_row has r)); cbn [andb];
    [|by destruct (import_out_of_frame params), (import_with_stop_codon params)].
  destruct (import_out_of_frame params); cbn [orb].
  - cbn [fmap list_fmap].
    destruct (import_with_stop_codon params); cbn [negb orb andb].
    + cbn [fmap list_fmap]. rewrite filter_single.
      destruct (nonempty_ok _ _); cbn [andb]; [|done].
      by rewrite filter_single.
    + rewrite filter_single.
      destruct (stop_free _); cbn [andb]; [|done].
      cbn [fmap list_fmap]. rewrite filter_single.
      destruct (nonempty_ok _ _); cbn [andb]; [|done].
      by rewrite filter_single.
  - rewrite filter_single.
    destruct (inframe_ok _); cbn [andb];
      [|by destruct (import_with_stop_codon params)].
    cbn [fmap list_fmap].
    destruct (import_with_stop_codon params); cbn [negb orb andb].
    + cbn [fmap list_fmap]. rewrite filter_single.
      destruct (nonempty_ok _ _); cbn [andb]; [|done].
      by rewrite filter_single.
    + rewrite filter_single.
      destruct (stop_free _); cbn [andb]; [|done].
      cbn [fmap list_fmap]. rewrite filter_single.
      destruct (nonempty_ok _ _); cbn [andb]; [|done].
      by rewrite filter_single.
Qed.

Lemma row_outcome_eq (r : gmap string value) :
  row_outcome st params has r
  = if passes_filters st params has (negb (import_with_stop_codon params)) r
    then Some (finish_row params has r) else None.
Proof.
  unfold row_outcome. rewrite pipeline_rows_single.
  by destruct (passes_filters _ _ _ _ _).
Qed.

Lemma pipeline_rows_omap (l : list (gmap string value)) :
  pipeline_rows st params has l = omap (row_outcome st params has) l.
Proof.
  induction l as [|r l IH]; [by destruct params as [[] [] ? ? ?]|].
  change (r :: l) with ([r] ++ l).
  rewrite pipeline_rows_app, IH, pipeline_rows_single.
  cbn [app omap list_omap]. rewrite row_outcome_eq.
  by destruct (passes_filters _ _ _ _ _).
Qed.

Lemma lookup_finish_row (r : gmap string value) (k : string) :
  k ≠ "counts" -> k ≠ "sequence_aas" -> k ≠ "sequences" -> k ≠ "region_types" ->
  finish_row params has r !! k = r !! k.
Proof.
  intros H1 H2 H3 H4. unfold finish_row, region_row, trim_row, translate_row,
    default_counts_row.
  rewrite lookup_set_cell, decide_False by done.
  destruct (bool_decide (region_type params = IMGT_CDR3));
    rewrite ?lookup_set_cell, ?decide_False by done;
    destruct has; by rewrite ?lookup_set_cell, ?decide_False by done.
Qed.

Lemma lookup_finish_row_counts (r : gmap string value) :
  finish_row params has r !! "counts"
  = if has then r !! "counts" else Some (VInt 1).
Proof.
  unfold finish_row, region_row, trim_row, translate_row, default_counts_row.
  rewrite lookup_set_cell, decide_False by done.
  destruct (bool_decide (region_type params = IMGT_CDR3));
    rewrite ?lookup_set_cell, ?decide_False by done;
    destruct has; by rewrite ?lookup_set_cell, ?decide_False by done.
Qed.

End rows.

(** ** When no row is left *)

Section frames.

Context (params : DatasetImportParams) (has : bool).

Lemma lookup_default_counts_row (r : gmap string value) (k : string) :
  k ≠ "counts" -> default_counts_row has r !! k = r !! k.
Proof.
  intros Hk. unfold default_counts_row. destruct has; [done|].
  by rewrite lookup_set_cell, decide_False.
Qed.

Lemma needs_translation_default_counts (r : gmap string value) :
  needs_translation params (default_counts_row has r)
  = needs_translation params r.
Proof.
  unfold needs_translation, anchors_ok, inframe_ok.
  by rewrite !lookup_default_counts_row by done.
Qed.

Lemma has_nt_string_default_counts (r : gmap string value) :
  has_nt_string (default_counts_row has r) = has_nt_string r.
Proof.
  unfold has_nt_string. by rewrite lookup_default_counts_row by done.
Qed.

Lemma stop_codon_ok_default_counts (r : gmap string value) :
  stop_codon_ok params (default_counts_row has r) = stop_codon_ok params r.
Proof.
  unfold stop_codon_ok, stop_free, translate_row.
  rewrite !lookup_set_cell, !decide_True by done.
  by rewrite lookup_default_counts_row by done.
Qed.

Lemma selected_single (r : gmap string value) :
  selected params has [r]
  = if needs_translation params r then [default_counts_row has r] else [].
Proof.
  rewrite <- needs_translation_default_counts.
  unfold selected, needs_translation. cbn [fmap list_fmap].
  rewrite filter_single.
  destruct (anchors_ok _); cbn [andb];
    destruct (import_out_of_frame params); cbn [orb]; try done.
  by rewrite filter_single.
Qed.

Lemma forallb_selected (l : list (gmap string value)) :
  forallb has_nt_string (selected params has l)
  = forallb (fun r => negb (needs_translation params r) || has_nt_string r) l.
Proof.
  induction l as [|r l IH].
  - unfold selected. by destruct (import_out_of_frame params).
  - change (r :: l) with ([r] ++ l).
    rewrite (selected_app params), forallb_app, IH, selected_single.
    cbn [app forallb].
    destruct (needs_translation params r); cbn [forallb negb orb andb];
      [|done].
    by rewrite has_nt_string_default_counts, andb_true_r.
Qed.

Lemma is_nil_app {A : Type} (l1 l2 : list A) :
  is_nil (l1 ++ l2) = is_nil l1 && is_nil l2.
Proof. by destruct l1. Qed.

Lemma is_nil_selected (l : list (gmap string value)) :
  is_nil (selected params has l)
  = forallb (fun r => negb (needs_translation params r)) l.
Proof.
  induction l as [|r l IH].
  - unfold selected. by destruct (import_out_of_frame params).
  - change (r :: l) with ([r] ++ l).
    rewrite (selected_app params), is_nil_app, IH, selected_single.
    cbn [app forallb]. by destruct (needs_translation params r).
Qed.

Lemma kept_rows_app (l1 l2 : list (gmap string value)) :
  kept_rows params has (l1 ++ l2)
  = kept_rows params has l1 ++ kept_rows params has l2.
Proof.
  unfold kept_rows. rewrite (selected_app params), fmap_app.
  destruct (import_with_stop_codon params); [done|]. by rewrite filter_app.
Qed.

Lemma kept_rows_single (r : gmap string value) :
  kept_rows params has [r]
  = if row_kept params r
    then [translate_row (default_counts_row has r)] else [].
Proof.
  unfold kept_rows, row_kept. rewrite selected_single.
  rewrite <- stop_codon_ok_default_counts. unfold stop_codon_ok.
  destruct (needs_translation params r); cbn [andb fmap list_fmap];
    [|by destruct (import_with_stop_codon params)].
  destruct (import_with_stop_codon params); cbn [orb]; [done|].
  by rewrite filter_single.
Qed.

Lemma is_nil_kept_rows (l : list (gmap string value)) :
  is_nil (kept_rows params has l)
  = forallb (fun r => negb (row_kept params r)) l.
Proof.
  induction l as [|r l IH].
  - unfold kept_rows, selected.
    by destruct (import_out_of_frame params), (import_with_stop_codon params).
  - change (r :: l) with ([r] ++ l).
    rewrite kept_rows_app, is_nil_app, IH, kept_rows_single.
    cbn [app forallb]. by destruct (row_kept params r).
Qed.

(** The error of the empty table, read off the rows of the input. *)
Lemma empty_frame_error_eq (cols : list string)
    (l : list (gmap string value)) :
  empty_frame_error params has cols l
  = forallb (fun r => negb (row_kept params r)) l
    && (negb (bool_decide ("region_types" ∈ cols))
        || (negb (import_with_stop_codon params)
            && forallb (fun r => negb (needs_translation params r)) l)).
Proof.
  unfold empty_frame_error. by rewrite is_nil_kept_rows, is_nil_selected.
Qed.

Lemma empty_frame_error_kept (cols : list string)
    (l : list (gmap string value)) :
  Exists (fun r => row_kept params r = true) l ->
  empty_frame_error params has cols l = false.
Proof.
  intros Hex. rewrite empty_frame_error_eq.
  assert (forallb (fun r => negb (row_kept params r)) l = false) as ->;
    [|done].
  induction Hex as [r l Hr|r l _ IH]; cbn [forallb].
  - by rewrite Hr.
  - rewrite IH. apply andb_false_r.
Qed.

End frames.

(** ** What a successful run tells about the input *)

Section outcome.

Context (st : SequenceType) (params : DatasetImportParams).

Lemma preprocess_dataframe_Ok (df df' : DataFrame) :
  preprocess_dataframe st df params = Ok df' ->
  columns df' = out_columns (columns df) /\
  rows df' = omap (row_outcome st params (has_counts df)) (rows df) /\
  "anchors_found" ∈ columns df /\
  "sequences" ∈ columns df /\
  (import_out_of_frame params = false -> "is_inframe" ∈ columns df) /\
  forallb has_nt_string (selected params (has_counts df) (rows df)) = true.
Proof.
  rewrite preprocess_dataframe_eq.
  destruct (bool_decide_reflect ("anchors_found" ∈ columns df)) as [Ha|Ha];
    cbn [negb]; [|done].
  destruct (bool_decide_reflect ("is_inframe" ∈ columns df)) as [Hf|Hf];
    destruct (import_out_of_frame params); cbn [negb andb]; try done;
    (destruct (bool_decide_reflect ("sequences" ∈ columns df)) as [Hs|Hs];
     cbn [negb]; [|done]);
    (destruct (forallb has_nt_string _) eqn:Hstr; [|done]);
    (destruct (empty_frame_error _ _ _ _); [done|]);
    intros [= <-]; cbn [columns rows];
    by rewrite pipeline_rows_omap.
Qed.

(** A run that returns a table with a row has not met the error of the
    empty table. *)
Lemma preprocess_dataframe_Ok_kept (df df' : DataFrame) :
  preprocess_dataframe st df params = Ok df' ->
  empty_frame_error params (has_counts df) (columns df) (rows df) = false.
Proof.
  rewrite preprocess_dataframe_eq.
  destruct (bool_decide ("anchors_found" ∈ columns df)); cbn [negb]; [|done].
  destruct (negb (import_out_of_frame params)
            && negb (bool_decide ("is_inframe" ∈ columns df))); [done|].
  destruct (bool_decide ("sequences" ∈ columns df)); cbn [negb]; [|done].
  destruct (forallb has_nt_string _); [|done].
  by destruct (empty_frame_error _ _ _ _).
Qed.

Lemma row_outcome_Some has (r r' : gmap string value) :
  row_outcome st params has r = Some r' ->
  r' = finish_row params has r /\
  passes_filters st params has (negb (import_with_stop_codon params)) r = true.
Proof.
  rewrite row_outcome_eq.
  destruct (passes_filters _ _ _ _ _); [|done]. by intros [= <-].
Qed.

Lemma passes_filters_inv has check (r : gmap string value) :
  passes_filters st params has check r = true ->
  anchors_ok (default_counts_row has r) = true /\
  (import_out_of_frame params = false ->
     inframe_ok (default_counts_row has r) = true) /\
  (check = true -> stop_free (translate_row (default_counts_row has r)) = true) /\
  nonempty_ok params (finish_row params has r) = true /\
  legal_ok st params (finish_row params has r) = true.
Proof.
  unfold passes_filters. rewrite !andb_true_iff, !orb_true_iff.
  intros ((((Ha & Hf) & Hs) & Hn) & Hl). split_and!; try done.
  - intros Hoof. rewrite Hoof in Hf. by destruct Hf.
  - intros ->. by destruct Hs.
Qed.

Lemma passes_filters_row_kept has (r : gmap string value) :
  passes_filters st params has (negb (import_with_stop_codon params)) r = true ->
  row_kept params r = true.
Proof.
  intros Hp. apply passes_filters_inv in Hp as (Ha & Hf & Hs & _).
  unfold row_kept.
  rewrite <- (needs_translation_default_counts params has).
  rewrite <- (stop_codon_ok_default_counts params has).
  unfold needs_translation, stop_codon_ok. rewrite Ha. cbn [andb].
  destruct (import_out_of_frame params), (import_with_stop_codon params);
    cbn [orb negb andb] in *; rewrite ?Hf, ?Hs by done; done.
Qed.

Lemma Forall_omap {A B : Type} (f : A -> option B) (P : B -> Prop) (l : list A) :
  (forall x y, x ∈ l -> f x = Some y -> P y) -> Forall P (omap f l).
Proof.
  intros HP. apply Forall_forall. intros y Hy.
  apply list_elem_of_omap in Hy as (x & Hx & Hfx). eauto.
Qed.

End outcome.

(** ** The stop-codon filter *)

(** C4, as amended. In a table that [preprocess_dataframe] returns, a row
    whose translation contains the stop symbol anywhere has been dropped
    when [import_with_stop_codon] is false; when it is true the row is kept
    exactly if it passes the other filters. With
    [import_with_stop_codon] set, the first row of the two-row example
    survives, and its amino-acid sequence ["MK*"] is cut to ["K"] by the
    region trimming of the default region type [IMGT_CDR3] (it stays
    ["MK*"] for another region type). *)
Theorem stop_codon_filter :
  (forall st df params df' r s,
     preprocess_dataframe st df params = Ok df' ->
     r !! "sequences" = Some (VStr s) ->
     Py.contains "*" (translation s) = true ->
     rows df' = omap (row_outcome st params (has_counts df)) (rows df) /\
     (import_with_stop_codon params = false ->
        row_outcome st params (has_counts df) r = None) /\
     (import_with_stop_codon params = true ->
        row_outcome st params (has_counts df) r
        = if passes_filters st params (has_counts df) false r
          then Some (finish_row params (has_counts df) r) else None)) /\
  (forall st,
     result_column "sequence_aas"
       (preprocess_dataframe st mixed_table default_params)
     = Ok [Some (VStr "ASS")]) /\
  (forall st,
     result_column "sequence_aas"
       (preprocess_dataframe st example_table (params_with_stop_codon IMGT_CDR3))
     = Ok [Some (VStr "K")]) /\
  (forall st,
     result_column "sequence_aas"
       (preprocess_dataframe st example_table
          (params_with_stop_codon IMGT_JUNCTION))
     = Ok [Some (VStr "MK*")]).
Proof.
  split_and!.
  - intros st df params df' r s Hok Hs Hstop.
    apply preprocess_dataframe_Ok in Hok as (_ & Hrows & _).
    split; [done|]. rewrite row_outcome_eq. split; intros ->; [|done].
    unfold passes_filters, stop_free, translate_row.
    rewrite lookup_set_cell, decide_True by done.
    rewrite lookup_default_counts_row, Hs by done. cbn [aa_cell negb orb].
    rewrite Hstop. cbn [negb]. by rewrite andb_false_r.
  - intros []; vm_compute; reflexivity.
  - intros []; vm_compute; reflexivity.
  - intros []; vm_compute; reflexivity.
Qed.

Lemma stop_codon_filter_witness :
  preprocess_dataframe AMINO_ACID mixed_table default_params
  = Ok {| columns := example_out_columns; rows := [junction_row_out] |} /\
  example_row_stop !! "sequences" = Some (VStr "ATGAAATAG") /\
  Py.contains "*" (translation "ATGAAATAG") = true /\
  row_outcome AMINO_ACID default_params (has_counts mixed_table)
    example_row_stop = None.
Proof.
  assert (Hok : preprocess_dataframe AMINO_ACID mixed_table default_params
                = Ok {| columns := example_out_columns;
                        rows := [junction_row_out] |})
    by (vm_compute; reflexivity).
  assert (Hs : example_row_stop !! "sequences" = Some (VStr "ATGAAATAG"))
    by (vm_compute; reflexivity).
  assert (Hstop : Py.contains "*" (translation "ATGAAATAG") = true)
    by (vm_compute; reflexivity).
  destruct (proj1 stop_codon_filter AMINO_ACID mixed_table default_params
              _ example_row_stop "ATGAAATAG" Hok Hs Hstop) as (_ & Hdrop & _).
  split_and!; [exact Hok | exact Hs | exact Hstop | exact (Hdrop eq_refl)].
Defined.

(** C4 as stated fails: with [import_with_stop_codon] set and the rest of
    the configuration at its defaults, the surviving row of the example
    does not have the amino-acid sequence ["MK*"]. *)
Lemma stop_codon_example_trimmed :
  result_column "sequence_aas"
    (preprocess_dataframe AMINO_ACID example_table
       (params_with_stop_codon (region_type default_params)))
  <> Ok [Some (VStr "MK*")].
Proof. vm_compute. discriminate. Qed.

(** ** The empty-sequence filter *)

(** C5, as amended. No row is dropped for an empty derived amino-acid
    sequence: the pipeline passes [import_empty_aa_sequences = True], and a
    dropped row always has one of the other causes listed here. Rows whose
    nucleotide sequence is empty after the region trimming are dropped
    unless [import_empty_nt_sequences] is true. *)
Theorem empty_sequence_filter (st : SequenceType) (df : DataFrame)
    (params : DatasetImportParams) (df' : DataFrame) :
  preprocess_dataframe st df params = Ok df' ->
  rows df' = omap (row_outcome st params (has_counts df)) (rows df) /\
  (forall r : gmap string value,
     row_outcome st params (has_counts df) r = None ->
     r !! "anchors_found" <> Some (VStr "1")
     \/ (import_out_of_frame params = false /\
         r !! "is_inframe" <> Some (VStr "1"))
     \/ (import_with_stop_codon params = false /\
         exists s, r !! "sequences" = Some (VStr s) /\
                   Py.contains "*" (translation s) = true)
     \/ (import_empty_nt_sequences params = false /\
         ImportHelper.is_empty
           (finish_row params (has_counts df) r !! "sequences") = true)
     \/ (import_illegal_characters params = false /\
         ImportHelper.is_legal st
           (finish_row params (has_counts df) r
              !! ImportHelper.sequence_column st) = false)) /\
  (import_empty_nt_sequences params = false ->
     Forall (fun r' : gmap string value =>
               ImportHelper.is_empty (r' !! "sequences") = false)
            (rows df')).
Proof.
  intros Hok. apply preprocess_dataframe_Ok in Hok as (_ & Hrows & _).
  split_and!; [done| |].
  - intros r. rewrite row_outcome_eq.
    destruct (passes_filters _ _ _ _ _) eqn:Hp; [done|]. intros _.
    unfold passes_filters in Hp.
    rewrite !andb_false_iff, !orb_false_iff in Hp.
    unfold nonempty_ok, legal_ok in Hp. rewrite !orb_false_iff in Hp.
    destruct Hp as [[[[Ha|[Hoof Hf]]|[Hchk Hs]]|[Hnt He]]|[Hill Hl]].
    + left. unfold anchors_ok in Ha.
      rewrite lookup_default_counts_row in Ha by done.
      by apply bool_decide_eq_false in Ha.
    + right; left. split; [done|]. unfold inframe_ok in Hf.
      rewrite lookup_default_counts_row in Hf by done.
      by apply bool_decide_eq_false in Hf.
    + right; right; left. rewrite negb_involutive in Hchk.
      split; [done|]. unfold stop_free, translate_row in Hs.
      rewrite lookup_set_cell, decide_True in Hs by done.
      rewrite lookup_default_counts_row in Hs by done.
      destruct (r !! "sequences") as [[s|z]|]; try done.
      exists s. split; [done|]. cbn [aa_cell] in Hs.
      by apply negb_false_iff in Hs.
    + right; right; right; left. split; [done|]. by apply negb_false_iff in He.
    + right; right; right; right. done.
  - intros Hnt. rewrite Hrows. apply Forall_omap. intros r r' _ Hr.
    apply row_outcome_Some in Hr as [-> Hp].
    apply passes_filters_inv in Hp as (_ & _ & _ & Hne & _).
    unfold nonempty_ok in Hne. rewrite Hnt in Hne.
    by apply negb_true_iff in Hne.
Qed.

Lemma empty_sequence_filter_witness :
  preprocess_dataframe AMINO_ACID short_and_junction_table params_no_empty_nt
  = Ok {| columns := example_out_columns; rows := [junction_row_out] |} /\
  row_outcome AMINO_ACID params_no_empty_nt
    (has_counts short_and_junction_table) short_row = None /\
  (import_empty_nt_sequences params_no_empty_nt = false /\
   ImportHelper.is_empty
     (finish_row params_no_empty_nt (has_counts short_and_junction_table)
        short_row !! "sequences") = true) /\
  Forall (fun r' : gmap string value =>
            ImportHelper.is_empty (r' !! "sequences") = false)
         [junction_row_out].
Proof.
  assert (Hok : preprocess_dataframe AMINO_ACID short_and_junction_table
                  params_no_empty_nt
                = Ok {| columns := example_out_columns;
                        rows := [junction_row_out] |})
    by (vm_compute; reflexivity).
  assert (Hnone : row_outcome AMINO_ACID params_no_empty_nt
                    (has_counts short_and_junction_table) short_row = None)
    by (vm_compute; reflexivity).
  destruct (empty_sequence_filter AMINO_ACID short_and_junction_table
              params_no_empty_nt _ Hok) as (_ & Hcause & Hnt).
  split; [exact Hok|]. split; [exact Hnone|].
  split; [|exact (Hnt eq_refl)]. split; [reflexivity|].
  destruct (Hcause short_row Hnone)
    as [Ha|[[_ Hf]|[[_ (s & Hs & Hstop)]|[[_ Hempty]|[_ Hlegal]]]]].
  - exfalso. apply Ha. vm_compute. reflexivity.
  - exfalso. apply Hf. vm_compute. reflexivity.
  - exfalso. assert (s = "AT") as ->.
    { vm_compute in Hs. congruence. }
    vm_compute in Hstop. discriminate Hstop.
  - exact Hempty.
  - exfalso. vm_compute in Hlegal. discriminate Hlegal.
Defined.

(** C5 as stated fails: under the default configuration a row whose
    nucleotide sequence is shorter than a codon survives with an empty
    amino-acid sequence. *)
Lemma empty_amino_acid_row_survives :
  exists df',
    preprocess_dataframe AMINO_ACID short_table default_params = Ok df' /\
    short_row_out ∈ rows df' /\
    short_row_out !! "sequence_aas" = Some (VStr "").
Proof.
  exists {| columns := example_out_columns; rows := [short_row_out] |}.
  split_and!; [vm_compute; reflexivity | by left | vm_compute; reflexivity].
Qed.

(** ** The anchor filter *)

Section anchors.

Context (st : SequenceType) (params : DatasetImportParams) (has : bool).

Lemma selected_no_anchor (r : gmap string value) :
  r !! "anchors_found" <> Some (VStr "1") -> selected params has [r] = [].
Proof.
  intros Hr. unfold selected. cbn [fmap list_fmap].
  rewrite filter_single. unfold anchors_ok.
  rewrite lookup_default_counts_row by done.
  rewrite bool_decide_eq_false_2 by done.
  by destruct (import_out_of_frame params).
Qed.

Lemma kept_rows_no_anchor (r : gmap string value) :
  r !! "anchors_found" <> Some (VStr "1") -> kept_rows params has [r] = [].
Proof.
  intros Hr. unfold kept_rows. rewrite selected_no_anchor by done.
  by destruct (import_with_stop_codon params).
Qed.

Lemma row_outcome_no_anchor (r : gmap string value) :
  r !! "anchors_found" <> Some (VStr "1") ->
  row_outcome st params has r = None.
Proof.
  intros Hr. rewrite row_outcome_eq. unfold passes_filters, anchors_ok.
  rewrite lookup_default_counts_row by done.
  by rewrite bool_decide_eq_false_2.
Qed.

Lemma pipeline_rows_no_anchor (r : gmap string value) :
  r !! "anchors_found" <> Some (VStr "1") ->
  pipeline_rows st params has [r] = [].
Proof.
  intros Hr. rewrite pipeline_rows_omap. cbn [omap list_omap].
  by rewrite row_outcome_no_anchor.
Qed.

End anchors.

(** C6. Every row of the result has [anchors_found == "1"], and it is the
    value the row came in with: the later stages do not write this column.
    A row with any other value is dropped without an error: the result,
    table or exception, is the one the table without that row gives. *)
Theorem anchors_found_invariant :
  (forall st df params df',
     preprocess_dataframe st df params = Ok df' ->
     Forall (fun r' : gmap string value =>
               r' !! "anchors_found" = Some (VStr "1")) (rows df') /\
     rows df' = omap (row_outcome st params (has_counts df)) (rows df) /\
     (forall r r' : gmap string value,
        row_outcome st params (has_counts df) r = Some r' ->
        r' !! "anchors_found" = r !! "anchors_found")) /\
  (forall st cols (l1 l2 : list (gmap string value)) (r : gmap string value) params,
     r !! "anchors_found" <> Some (VStr "1") ->
     preprocess_dataframe st {| columns := cols; rows := l1 ++ r :: l2 |} params
     = preprocess_dataframe st {| columns := cols; rows := l1 ++ l2 |} params).
Proof.
  split.
  - intros st df params df' Hok.
    apply preprocess_dataframe_Ok in Hok as (_ & Hrows & _).
    assert (Hsame : forall r r' : gmap string value,
              row_outcome st params (has_counts df) r = Some r' ->
              r' !! "anchors_found" = r !! "anchors_found").
    { intros r r' Hr. apply row_outcome_Some in Hr as [-> _].
      by apply lookup_finish_row. }
    split_and!; [|done|done].
    rewrite Hrows. apply Forall_omap. intros r r' _ Hr.
    rewrite (Hsame _ _ Hr).
    apply row_outcome_Some in Hr as [_ Hp].
    apply passes_filters_inv in Hp as (Ha & _).
    unfold anchors_ok in Ha. rewrite lookup_default_counts_row in Ha by done.
    by apply bool_decide_eq_true in Ha.
  - intros st cols l1 l2 r params Hr.
    rewrite !preprocess_dataframe_eq. unfold has_counts, Pd.has_column.
    cbn [columns rows].
    change (r :: l2) with ([r] ++ l2).
    unfold empty_frame_error.
    rewrite !kept_rows_app, !selected_app, !pipeline_rows_app.
    rewrite kept_rows_no_anchor, selected_no_anchor, pipeline_rows_no_anchor
      by done.
    by rewrite !app_nil_l.
Qed.

Lemma anchors_found_invariant_witness :
  preprocess_dataframe AMINO_ACID example_table
    (params_with_stop_codon IMGT_CDR3)
  = Ok {| columns := example_out_columns; rows := [example_row_stop_out] |} /\
  Forall (fun r' : gmap string value =>
            r' !! "anchors_found" = Some (VStr "1")) [example_row_stop_out] /\
  example_row_no_anchor !! "anchors_found" <> Some (VStr "1") /\
  preprocess_dataframe AMINO_ACID example_table
    (params_with_stop_codon IMGT_CDR3)
  = preprocess_dataframe AMINO_ACID
      {| columns := columns example_table; rows := [example_row_stop] |}
      (params_with_stop_codon IMGT_CDR3).
Proof.
  assert (Hok : preprocess_dataframe AMINO_ACID example_table
                  (params_with_stop_codon IMGT_CDR3)
                = Ok {| columns := example_out_columns;
                        rows := [example_row_stop_out] |})
    by (vm_compute; reflexivity).
  assert (Hne : example_row_no_anchor !! "anchors_found" <> Some (VStr "1"))
    by (vm_compute; discriminate).
  split_and!; [exact Hok| |exact Hne|].
  - exact (proj1 (proj1 anchors_found_invariant AMINO_ACID example_table
                    (params_with_stop_codon IMGT_CDR3) _ Hok)).
  - exact (proj2 anchors_found_invariant AMINO_ACID (columns example_table)
             [example_row_stop] [] example_row_no_anchor
             (params_with_stop_codon IMGT_CDR3) Hne).
Defined.

(** ** The counts column *)

(** C8. When the table has no [counts] column every row of the result has
    [counts == 1]; when it has one, every row of the result has the count it
    came in with, so a row with [counts = 5] keeps [5]. *)
Theorem counts_default_or_kept :
  (forall st df params df',
     preprocess_dataframe st df params = Ok df' ->
     rows df' = omap (row_outcome st params (has_counts df)) (rows df) /\
     ("counts" ∉ columns df ->
        Forall (fun r' : gmap string value => r' !! "counts" = Some (VInt 1))
               (rows df')) /\
     ("counts" ∈ columns df ->
        forall r r' : gmap string value,
          row_outcome st params (has_counts df) r = Some r' ->
          r' !! "counts" = r !! "counts")) /\
  (forall st,
     result_column "counts" (preprocess_dataframe st counted_table default_params)
     = Ok [Some (VInt 5)]) /\
  (forall st,
     result_column "counts" (preprocess_dataframe st junction_table default_params)
     = Ok [Some (VInt 1)]).
Proof.
  split_and!.
  - intros st df params df' Hok.
    apply preprocess_dataframe_Ok in Hok as (_ & Hrows & _).
    split_and!; [done| |].
    + intros Hc. rewrite Hrows. apply Forall_omap. intros r r' _ Hr.
      apply row_outcome_Some in Hr as [-> _].
      rewrite lookup_finish_row_counts. unfold has_counts, Pd.has_column.
      by rewrite bool_decide_eq_false_2.
    + intros Hc r r' Hr. apply row_outcome_Some in Hr as [-> _].
      rewrite lookup_finish_row_counts. unfold has_counts, Pd.has_column.
      by rewrite bool_decide_eq_true_2.
  - intros []; vm_compute; reflexivity.
  - intros []; vm_compute; reflexivity.
Qed.

Lemma counts_default_or_kept_witness :
  preprocess_dataframe AMINO_ACID counted_table default_params
  = Ok {| columns := example_out_columns; rows := [counted_row_out] |} /\
  "counts" ∈ columns counted_table /\
  row_outcome AMINO_ACID default_params (has_counts counted_table) counted_row
  = Some counted_row_out /\
  counted_row_out !! "counts" = counted_row !! "counts".
Proof.
  assert (Hok : preprocess_dataframe AMINO_ACID counted_table default_params
                = Ok {| columns := example_out_columns;
                        rows := [counted_row_out] |})
    by (vm_compute; reflexivity).
  assert (Hc : "counts" ∈ columns counted_table)
    by (apply (bool_decide_unpack _); vm_compute; exact I).
  assert (Hr : row_outcome AMINO_ACID default_params (has_counts counted_table)
                 counted_row = Some counted_row_out)
    by (apply (bool_decide_unpack _); vm_compute; exact I).
  split_and!; [exact Hok | exact Hc | exact Hr |].
  exact (proj2 (proj2 (proj1 counts_default_or_kept AMINO_ACID counted_table
                         default_params _ Hok)) Hc _ _ Hr).
Defined.

(** ** Missing columns *)

(** C9. A table without the [sequences] column, without the
    [anchors_found] column, or without the [is_inframe] column while
    [import_out_of_frame] is false, makes [preprocess_dataframe] raise. With
    [import_out_of_frame] true the [is_inframe] column is not read: the run
    never raises the error of the missing [is_inframe] column, and it
    returns a table, whether or not the column is there, when the other two
    columns are present, the selected rows hold nucleotide strings and one
    row is still in the table when the region type is assigned. *)
Theorem missing_column_raises :
  (forall st df params,
     "sequences" ∉ columns df \/ "anchors_found" ∉ columns df
     \/ (import_out_of_frame params = false /\ "is_inframe" ∉ columns df) ->
     exists e, preprocess_dataframe st df params = Raise e) /\
  (forall st df params,
     import_out_of_frame params = true ->
     preprocess_dataframe st df params <> Raise (AttributeError "is_inframe")) /\
  (forall st df params,
     import_out_of_frame params = true ->
     "anchors_found" ∈ columns df ->
     "sequences" ∈ columns df ->
     Forall (fun r : gmap string value =>
               r !! "anchors_found" = Some (VStr "1") -> has_nt_string r = true)
            (rows df) ->
     Exists (fun r : gmap string value => row_kept params r = true) (rows df) ->
     exists df', preprocess_dataframe st df params = Ok df').
Proof.
  split_and!.
  - intros st df params Hmiss. rewrite preprocess_dataframe_eq.
    destruct (bool_decide_reflect ("anchors_found" ∈ columns df)) as [Ha|Ha];
      cbn [negb]; [|by eauto].
    destruct (bool_decide_reflect ("is_inframe" ∈ columns df)) as [Hf|Hf];
      destruct (import_out_of_frame params) eqn:Hoof; cbn [negb andb];
      try (by eauto);
      (destruct (bool_decide_reflect ("sequences" ∈ columns df)) as [Hs|Hs];
       cbn [negb]; [|by eauto]);
      destruct Hmiss as [?|[?|[? ?]]]; done.
  - intros st df params Hoof. rewrite preprocess_dataframe_eq, Hoof.
    cbn [negb andb].
    destruct (negb (bool_decide ("anchors_found" ∈ columns df)));
      [discriminate|].
    destruct (negb (bool_decide ("sequences" ∈ columns df)));
      [discriminate|].
    destruct (forallb _ _); [|discriminate].
    destruct (empty_frame_error _ _ _ _); discriminate.
  - intros st df params Hoof Ha Hs Hstr Hkept. rewrite preprocess_dataframe_eq.
    rewrite (bool_decide_eq_true_2 _ Ha), (bool_decide_eq_true_2 _ Hs), Hoof.
    cbn [negb andb].
    rewrite (empty_frame_error_kept _ _ _ _ Hkept).
    assert (forallb has_nt_string
              (selected params (has_counts df) (rows df)) = true) as ->;
      [|eexists; reflexivity].
    unfold selected. rewrite Hoof.
    apply forallb_forall. intros r0 Hin.
    apply list_elem_of_In, list_elem_of_filter in Hin as [Hanch Hin].
    apply list_elem_of_fmap in Hin as (r & -> & Hin).
    rewrite Forall_forall in Hstr. specialize (Hstr r Hin).
    unfold anchors_ok in Hanch. rewrite lookup_default_counts_row in Hanch by done.
    apply bool_decide_eq_true in Hanch.
    unfold has_nt_string in *. rewrite lookup_default_counts_row by done. auto.
Qed.

Lemma missing_column_raises_witness :
  (import_out_of_frame default_params = false /\
   ("is_inframe" ∉ columns frameless_table) /\
   (exists e, preprocess_dataframe AMINO_ACID frameless_table default_params
              = Raise e)) /\
  (import_out_of_frame params_out_of_frame = true /\
   preprocess_dataframe AMINO_ACID frameless_table params_out_of_frame
   <> Raise (AttributeError "is_inframe") /\
   (exists df', preprocess_dataframe AMINO_ACID frameless_table
                  params_out_of_frame = Ok df')).
Proof.
  assert (Hf : "is_inframe" ∉ columns frameless_table)
    by (apply (bool_decide_unpack _); vm_compute; exact I).
  assert (Ha : "anchors_found" ∈ columns frameless_table)
    by (apply (bool_decide_unpack _); vm_compute; exact I).
  assert (Hs : "sequences" ∈ columns frameless_table)
    by (apply (bool_decide_unpack _); vm_compute; exact I).
  assert (Hstr : Forall (fun r : gmap string value =>
                     r !! "anchors_found" = Some (VStr "1") ->
                     has_nt_string r = true) (rows frameless_table))
    by (repeat constructor).
  assert (Hkept : Exists (fun r : gmap string value =>
                      row_kept params_out_of_frame r = true)
                    (rows frameless_table))
    by (apply Exists_cons_hd; vm_compute; reflexivity).
  split.
  - split_and!; [reflexivity | exact Hf |].
    exact (proj1 missing_column_raises AMINO_ACID frameless_table default_params
             (or_intror (or_intror (conj eq_refl Hf)))).
  - split_and!; [reflexivity | |].
    + exact (proj1 (proj2 missing_column_raises) AMINO_ACID frameless_table
               params_out_of_frame eq_refl).
    + exact (proj2 (proj2 missing_column_raises) AMINO_ACID frameless_table
               params_out_of_frame eq_refl Ha Hs Hstr Hkept).
Defined.

(** ** Running the pipeline on its own output *)

Section rerun.

Context (st : SequenceType) (params : DatasetImportParams).
Hypothesis no_trimming : region_type params <> IMGT_CDR3.

Lemma trim_row_other (r : gmap string value) :
  trim_row (region_type params) r = r.
Proof. unfold trim_row. by rewrite bool_decide_eq_false_2. Qed.

Lemma lookup_finish_row_aas has (r : gmap string value) :
  finish_row params has r !! "sequence_aas"
  = aa_cell (finish_row params has r !! "sequences").
Proof.
  unfold finish_row, region_row. rewrite !trim_row_other.
  rewrite !lookup_set_cell, !decide_False by done.
  unfold translate_row. rewrite !lookup_set_cell.
  by rewrite decide_True, decide_False.
Qed.

Lemma finish_row_again has (r : gmap string value) :
  finish_row params true (finish_row params has r) = finish_row params has r.
Proof.
  set (r' := finish_row params has r).
  unfold finish_row at 1. cbn [default_counts_row].
  rewrite trim_row_other.
  assert (translate_row r' = r') as ->.
  { unfold translate_row. apply set_cell_same.
    apply lookup_finish_row_aas. }
  unfold region_row. apply set_cell_same.
  unfold r', finish_row, region_row.
  by rewrite lookup_set_cell, decide_True.
Qed.

Lemma passes_filters_again has check (r : gmap string value) :
  passes_filters st params has check r = true ->
  passes_filters st params true check (finish_row params has r) = true.
Proof.
  intros Hp. unfold passes_filters in *. rewrite finish_row_again.
  cbn [default_counts_row].
  assert (translate_row (finish_row params has r)
          = finish_row params has r) as ->.
  { unfold translate_row. apply set_cell_same, lookup_finish_row_aas. }
  rewrite !andb_true_iff in *.
  destruct Hp as ((((Ha & Hf) & Hs) & Hn) & Hl). split_and!; try done.
  - unfold anchors_ok in *. rewrite lookup_finish_row by done.
    by rewrite lookup_default_counts_row in Ha.
  - unfold inframe_ok in *. rewrite lookup_finish_row by done.
    by rewrite lookup_default_counts_row in Hf.
  - unfold stop_free in *.
    replace (finish_row params has r !! "sequence_aas")
      with (translate_row (default_counts_row has r) !! "sequence_aas");
      [done|].
    unfold finish_row, region_row. rewrite trim_row_other.
    by rewrite (lookup_set_cell "region_types"), decide_False.
Qed.

Lemma row_outcome_again has (r r' : gmap string value) :
  row_outcome st params has r = Some r' ->
  row_outcome st params true r' = Some r'.
Proof.
  intros Hr. apply row_outcome_Some in Hr as [-> Hp].
  rewrite row_outcome_eq, passes_filters_again by done.
  by rewrite finish_row_again.
Qed.

Lemma omap_fixed {A : Type} (f : A -> option A) (l : list A) :
  (forall x, x ∈ l -> f x = Some x) -> omap f l = l.
Proof.
  intros Hf. induction l as [|x l IH]; [done|].
  cbn [omap list_omap]. rewrite Hf by (by left).
  rewrite IH by (intros; apply Hf; by right). done.
Qed.

Lemma has_nt_string_finish_row has (r : gmap string value) :
  has_nt_string (finish_row params has r)
  = has_nt_string (default_counts_row has r).
Proof.
  unfold has_nt_string, finish_row, region_row, translate_row.
  rewrite trim_row_other.
  by rewrite !lookup_set_cell, !decide_False.
Qed.

End rerun.

Section selection.

Context (params : DatasetImportParams) (has : bool).

Lemma elem_of_selected (l : list (gmap string value)) (r0 : gmap string value) :
  r0 ∈ selected params has l <->
  exists r, r ∈ l /\ r0 = default_counts_row has r /\
            anchors_ok r0 = true /\
            (import_out_of_frame params = false -> inframe_ok r0 = true).
Proof.
  unfold selected. destruct (import_out_of_frame params).
  - rewrite list_elem_of_filter, list_elem_of_fmap. split.
    + intros (Ha & r & -> & Hin). by exists r.
    + intros (r & Hin & -> & Ha & _). split; [done|]. by exists r.
  - rewrite !list_elem_of_filter, list_elem_of_fmap. split.
    + intros (Hf & Ha & r & -> & Hin). exists r. auto.
    + intros (r & Hin & -> & Ha & Hf). split_and!; [by apply Hf|done|].
      by exists r.
Qed.

End selection.

Lemma elem_of_out_columns (cols : list string) (x : string) :
  x ∈ out_columns cols <->
  x = "region_types" \/ x = "sequence_aas" \/ x = "counts" \/ x ∈ cols.
Proof. unfold out_columns. by rewrite !elem_of_add_column. Qed.

Lemma out_columns_again (cols : list string) :
  out_columns (out_columns cols) = out_columns cols.
Proof.
  unfold out_columns at 1.
  rewrite !add_column_present; [done|..];
    rewrite ?elem_of_add_column, elem_of_out_columns; tauto.
Qed.

(** C7, as amended. For a region type other than [IMGT_CDR3], when the
    first run returns a table with at least one row, a second run of the
    pipeline on that table, under the same configuration, gives the table
    back. (For [IMGT_CDR3] every run trims the sequences once more.) *)
Theorem preprocess_dataframe_idempotent (st : SequenceType) (df : DataFrame)
    (params : DatasetImportParams) (df' : DataFrame) :
  region_type params <> IMGT_CDR3 ->
  preprocess_dataframe st df params = Ok df' ->
  rows df' <> [] ->
  preprocess_dataframe st df' params = Ok df'.
Proof.
  intros Hrt Hok Hne.
  apply preprocess_dataframe_Ok in Hok as (Hcols & Hrows & Ha & Hs & Hf & Hstr).
  assert (Hcounts : has_counts df' = true).
  { unfold has_counts, Pd.has_column.
    rewrite bool_decide_eq_true, Hcols, elem_of_out_columns. tauto. }
  assert (Hfix : forall r', r' ∈ rows df' ->
                   row_outcome st params true r' = Some r').
  { intros r' Hin. rewrite Hrows in Hin.
    apply list_elem_of_omap in Hin as (r & _ & Hr).
    by apply (row_outcome_again st params Hrt (has_counts df) r). }
  rewrite preprocess_dataframe_eq, Hcounts.
  assert (empty_frame_error params true (columns df') (rows df') = false)
    as ->.
  { apply empty_frame_error_kept.
    destruct (rows df') as [|r' l'] eqn:Hl; [done|].
    apply Exists_cons_hd.
    apply (passes_filters_row_kept st params true).
    apply (row_outcome_Some st params true r' r'), Hfix. by left. }
  rewrite Hcols.
  assert (Ha' : "anchors_found" ∈ out_columns (columns df))
    by (rewrite elem_of_out_columns; tauto).
  assert (Hs' : "sequences" ∈ out_columns (columns df))
    by (rewrite elem_of_out_columns; tauto).
  rewrite (bool_decide_eq_true_2 _ Ha'), (bool_decide_eq_true_2 _ Hs').
  cbn [negb].
  assert (negb (import_out_of_frame params)
          && negb (bool_decide ("is_inframe" ∈ out_columns (columns df)))
          = false) as ->.
  { destruct (import_out_of_frame params); [done|]. cbn [negb andb].
    rewrite bool_decide_eq_true_2; [done|].
    rewrite elem_of_out_columns. auto. }
  assert (forallb has_nt_string (selected params true (rows df')) = true)
    as ->.
  { apply forallb_forall. intros r0 Hin.
    apply list_elem_of_In, elem_of_selected in Hin as (r' & Hin & -> & _).
    cbn [default_counts_row]. rewrite Hrows in Hin.
    apply list_elem_of_omap in Hin as (r & Hin & Hr).
    apply row_outcome_Some in Hr as [-> Hp].
    rewrite has_nt_string_finish_row by done.
    rewrite forallb_forall in Hstr. apply Hstr, list_elem_of_In.
    apply elem_of_selected. exists r.
    apply passes_filters_inv in Hp as (Hanch & Hfr & _). done. }
  rewrite out_columns_again, pipeline_rows_omap.
  rewrite omap_fixed by done.
  destruct df' as [cols' l']. cbn [columns rows] in *. by subst.
Qed.

Lemma preprocess_dataframe_idempotent_witness :
  region_type params_junction <> IMGT_CDR3 /\
  preprocess_dataframe AMINO_ACID junction_table params_junction
  = Ok {| columns := example_out_columns; rows := [junction_row_kept] |} /\
  rows {| columns := example_out_columns; rows := [junction_row_kept] |} <> [] /\
  preprocess_dataframe AMINO_ACID
    {| columns := example_out_columns; rows := [junction_row_kept] |}
    params_junction
  = Ok {| columns := example_out_columns; rows := [junction_row_kept] |}.
Proof.
  assert (Hrt : region_type params_junction <> IMGT_CDR3)
    by (vm_compute; discriminate).
  assert (Hok : preprocess_dataframe AMINO_ACID junction_table params_junction
                = Ok {| columns := example_out_columns;
                        rows := [junction_row_kept] |})
    by (vm_compute; reflexivity).
  assert (Hne : rows {| columns := example_out_columns;
                        rows := [junction_row_kept] |} <> [])
    by discriminate.
  split_and!; [exact Hrt | exact Hok | exact Hne |].
  exact (preprocess_dataframe_idempotent AMINO_ACID junction_table
           params_junction _ Hrt Hok Hne).
Defined.

(** C7 as stated fails: under the default configuration, whose region type
    is [IMGT_CDR3], the second run trims the sequences of the first run's
    output again and returns a different table. *)
Lemma preprocess_dataframe_rerun_differs :
  exists df',
    preprocess_dataframe AMINO_ACID junction_table default_params = Ok df' /\
    preprocess_dataframe AMINO_ACID df' default_params <> Ok df'.
Proof.
  exists {| columns := example_out_columns; rows := [junction_row_out] |}.
  split; [vm_compute; reflexivity|].
  intros Heq. apply (f_equal (result_column "sequences")) in Heq.
  vm_compute in Heq. discriminate.
Qed.

(** * Further properties *)

(** ** The translator, codon by codon *)

Section codons.

Lemma translation_app s t :
  Py.len s `mod` 3 = 0 ->
  translation (s +:+ t) = translation s +:+ translation t.
Proof.
  intros Hs.
  induction s as [| a | a b | a b c rest IH] using string_ind3.
  - done.
  - by vm_compute in Hs.
  - by vm_compute in Hs.
  - change (String a (String b (String c rest)) +:+ t)
      with (String a (String b (String c (rest +:+ t)))).
    cbn [translation].
    destruct (residue_symbol (String a (String b (String c ""))))
      as (ch & -> & _).
    change (String ch "" +:+ ?x) with (String ch x).
    rewrite IH; [done|].
    rewrite !len_String in Hs.
    replace (Py.len rest + 1 + 1 + 1) with (Py.len rest + 1 * 3) in Hs by lia.
    by rewrite Z.mod_add in Hs by lia.
Qed.

End codons.

(** X1. Translation is compositional at codon boundaries: when the length
    of [s] is a multiple of three, the translation of [s] followed by [t]
    is the translation of [s] followed by the translation of [t]. *)
Theorem translate_sequence_app (s t : string) :
  Py.len s `mod` 3 = 0 ->
  exists a b,
    translate_sequence s = Ok a /\ translate_sequence t = Ok b /\
    translate_sequence (s +:+ t) = Ok (a +:+ b).
Proof.
  intros Hs. exists (translation s), (translation t).
  rewrite !translate_sequence_translation.
  by rewrite translation_app.
Qed.

Lemma translate_sequence_app_witness :
  Py.len "ATGAAA" `mod` 3 = 0 /\
  exists a b,
    translate_sequence "ATGAAA" = Ok a /\ translate_sequence "TAGGC" = Ok b /\
    translate_sequence ("ATGAAA" +:+ "TAGGC") = Ok (a +:+ b).
Proof.
  assert (H1 : Py.len "ATGAAA" `mod` 3 = 0) by (vm_compute; reflexivity).
  split; [exact H1|].
  exact (translate_sequence_app "ATGAAA" "TAGGC" H1).
Defined.

Section codon_table.

Lemma CODON_TABLE_items_nt :
  Forall (fun kv : string * string =>
            is_nt_codon kv.1 = true /\ kv.2 <> "_" /\
            (kv.2 = "*" -> kv.1 ∈ stop_codons))
         CODON_TABLE_items.
Proof. apply (bool_decide_unpack _). vm_compute. exact I. Qed.

Lemma CODON_TABLE_lookup_Some codon aa :
  CODON_TABLE !! codon = Some aa ->
  is_nt_codon codon = true /\ aa <> "_" /\ (aa = "*" -> codon ∈ stop_codons).
Proof.
  intros Hv. apply elem_of_list_to_map_2 in Hv.
  pose proof CODON_TABLE_items_nt as Hall.
  rewrite Forall_forall in Hall. exact (Hall _ Hv).
Qed.

Lemma nucleotide_cases (a : ascii) :
  a ∈ nucleotides ->
  a = "A"%char \/ a = "C"%char \/ a = "G"%char \/ a = "T"%char.
Proof.
  unfold nucleotides. rewrite !elem_of_cons, elem_of_nil. tauto.
Qed.

Lemma CODON_TABLE_lookup_nt codon :
  is_nt_codon codon = true -> is_Some (CODON_TABLE !! codon).
Proof.
  destruct codon as [|a [|b [|c [|]]]]; try done.
  cbn [is_nt_codon]. rewrite !andb_true_iff, !bool_decide_eq_true.
  intros [[Ha Hb] Hc].
  apply nucleotide_cases in Ha, Hb, Hc.
  destruct Ha as [->|[->|[->| ->]]], Hb as [->|[->|[->| ->]]],
    Hc as [->|[->|[->| ->]]]; vm_compute; eauto.
Qed.

Lemma CODON_TABLE_lookup_None codon :
  CODON_TABLE !! codon = None <-> is_nt_codon codon = false.
Proof.
  split.
  - intros Hnone. destruct (is_nt_codon codon) eqn:Hnt; [|done].
    apply CODON_TABLE_lookup_nt in Hnt as [aa Haa]. congruence.
  - intros Hnt. destruct (CODON_TABLE !! codon) as [aa|] eqn:Haa; [|done].
    apply CODON_TABLE_lookup_Some in Haa as [Hnt' _]. congruence.
Qed.

Lemma residue_Some codon aa :
  CODON_TABLE !! codon = Some aa -> residue codon = aa.
Proof. intros Haa. unfold residue. by rewrite Haa. Qed.

Lemma residue_None codon :
  CODON_TABLE !! codon = None -> residue codon = "_".
Proof. intros Haa. unfold residue. by rewrite Haa. Qed.

Lemma residue_stop codon : residue codon = "*" <-> codon ∈ stop_codons.
Proof.
  split.
  - destruct (CODON_TABLE !! codon) as [aa|] eqn:Haa.
    + rewrite (residue_Some _ _ Haa). intros ->.
      apply CODON_TABLE_lookup_Some in Haa as (_ & _ & Hstop). auto.
    + by rewrite (residue_None _ Haa).
  - unfold stop_codons. rewrite !elem_of_cons, elem_of_nil.
    intros [->|[->|[->|[]]]]; vm_compute; reflexivity.
Qed.

Lemma translation_at s k :
  0 <= k < Py.len s / 3 ->
  Py.getslice (translation s) k (k + 1) = residue (codon_at s k).
Proof.
  intros Hk.
  unfold Py.getslice. rewrite translation_len, !slice_index_in by lia.
  replace (Z.to_nat (k + 1 - k)) with 1%nat by lia.
  rewrite <- codons_translation.
  apply join_singletons_at.
  - apply Forall_fmap, Forall_forall. intros i _. unfold compose.
    by destruct (residue_symbol (codon_at s (Z.of_nat i))) as (ch & -> & _).
  - rewrite list_lookup_fmap.
    rewrite (lookup_seq_lt _ _ (Z.to_nat k)) by lia.
    cbn [fmap option_fmap option_map Nat.add]. by rewrite Z2Nat.id by lia.
Qed.

End codon_table.

(** X2. Position [k] of the translation depends on the [k]-th codon only:
    it is the residue the codon table gives for it, and the placeholder
    when the table has no entry. The placeholder appears at a position
    exactly when the codon there is not three letters out of A, C, G, T;
    it never stands for a codon the table knows. *)
Theorem translate_sequence_at (s : string) (k : Z) :
  0 <= k < Py.len s / 3 ->
  exists out,
    translate_sequence s = Ok out /\
    Py.getslice out k (k + 1)
    = match CODON_TABLE !! codon_at s k with
      | Some aa => aa
      | None => "_"
      end /\
    (Py.getslice out k (k + 1) = "_" <-> CODON_TABLE !! codon_at s k = None) /\
    (CODON_TABLE !! codon_at s k = None <-> is_nt_codon (codon_at s k) = false).
Proof.
  intros Hk. exists (translation s).
  split; [apply translate_sequence_translation|].
  rewrite translation_at by done.
  split_and!; [| |apply CODON_TABLE_lookup_None];
    destruct (CODON_TABLE !! codon_at s k) as [aa|] eqn:Haa;
    rewrite ?(residue_Some _ _ Haa), ?(residue_None _ Haa); try done.
  apply CODON_TABLE_lookup_Some in Haa as (_ & Hne & _).
  split; [done|discriminate].
Qed.

Lemma translate_sequence_at_witness :
  0 <= 1 < Py.len "ATGnnnTAA" / 3 /\
  exists out,
    translate_sequence "ATGnnnTAA" = Ok out /\
    Py.getslice out 1 (1 + 1)
    = match CODON_TABLE !! codon_at "ATGnnnTAA" 1 with
      | Some aa => aa
      | None => "_"
      end /\
    (Py.getslice out 1 (1 + 1) = "_"
     <-> CODON_TABLE !! codon_at "ATGnnnTAA" 1 = None) /\
    (CODON_TABLE !! codon_at "ATGnnnTAA" 1 = None
     <-> is_nt_codon (codon_at "ATGnnnTAA" 1) = false).
Proof.
  assert (H1 : 0 <= 1 < Py.len "ATGnnnTAA" / 3) by (by vm_compute).
  split; [exact H1|].
  exact (translate_sequence_at "ATGnnnTAA" 1 H1).
Defined.

(** X3. A sequence written with the letters A, C, G, T only is translated
    without any placeholder. *)
Theorem translate_sequence_no_placeholder (s : string) :
  Forall (fun ch => ch ∈ nucleotides) (String.list_ascii_of_string s) ->
  exists out,
    translate_sequence s = Ok out /\
    "_"%char ∉ String.list_ascii_of_string out.
Proof.
  intros Hs. exists (translation s).
  split; [apply translate_sequence_translation|].
  induction s as [| a | a b | a b c rest IH] using string_ind3;
    try (by cbn; apply not_elem_of_nil).
  cbn [String.list_ascii_of_string] in Hs.
  apply Forall_cons in Hs as [Ha Hs]. apply Forall_cons in Hs as [Hb Hs].
  apply Forall_cons in Hs as [Hc Hs].
  cbn [translation].
  assert (Hnt : is_nt_codon (String a (String b (String c ""))) = true).
  { cbn [is_nt_codon]. by rewrite !bool_decide_eq_true_2. }
  apply CODON_TABLE_lookup_nt in Hnt as [aa Haa].
  pose proof (residue_symbol (String a (String b (String c "")))) as (ch & Hr & _).
  rewrite Hr. rewrite (residue_Some _ _ Haa) in Hr. subst aa.
  apply CODON_TABLE_lookup_Some in Haa as (_ & Hne & _).
  change (String ch "" +:+ ?x) with (String ch x).
  cbn [String.list_ascii_of_string]. rewrite not_elem_of_cons.
  split; [congruence | by apply IH].
Qed.

Lemma translate_sequence_no_placeholder_witness :
  Forall (fun ch => ch ∈ nucleotides) (String.list_ascii_of_string "ATGAAATAG") /\
  exists out,
    translate_sequence "ATGAAATAG" = Ok out /\
    "_"%char ∉ String.list_ascii_of_string out.
Proof.
  assert (H1 : Forall (fun ch => ch ∈ nucleotides)
                 (String.list_ascii_of_string "ATGAAATAG"))
    by (apply (bool_decide_unpack _); vm_compute; exact I).
  split; [exact H1|].
  exact (translate_sequence_no_placeholder "ATGAAATAG" H1).
Defined.

Section stop_symbol.

Lemma contains_star_String ch rest :
  Py.contains "*" (String ch rest)
  = bool_decide (ch = "*"%char) || Py.contains "*" rest.
Proof.
  cbn [Py.contains String.prefix].
  destruct (ascii_dec "*" ch) as [<-|Hne].
  - rewrite bool_decide_eq_true_2 by done. by destruct rest.
  - by rewrite bool_decide_eq_false_2 by congruence.
Qed.

Lemma contains_star_app x y :
  Py.contains "*" (x +:+ String "*" y) = true.
Proof.
  induction x as [|ch x IH].
  - change ("" +:+ String "*" y) with (String "*" y).
    rewrite contains_star_String. by rewrite bool_decide_eq_true_2.
  - change (String ch x +:+ String "*" y) with (String ch (x +:+ String "*" y)).
    rewrite contains_star_String, IH. apply orb_true_r.
Qed.

Lemma translation_stop_codon codon :
  codon ∈ stop_codons -> translation codon = "*" /\ Py.len codon `mod` 3 = 0.
Proof.
  unfold stop_codons. rewrite !elem_of_cons, elem_of_nil.
  intros [->|[->|[->|[]]]]; split; vm_compute; reflexivity.
Qed.

Lemma translation_stop_iff s :
  Py.contains "*" (translation s) = true <->
  exists pre codon rest,
    s = pre +:+ codon +:+ rest /\ Py.len pre `mod` 3 = 0 /\
    codon ∈ stop_codons.
Proof.
  split.
  - induction s as [| a | a b | a b c s IH] using string_ind3; try done.
    cbn [translation].
    destruct (residue_symbol (String a (String b (String c ""))))
      as (ch & Hr & _).
    rewrite Hr. change (String ch "" +:+ ?x) with (String ch x).
    rewrite contains_star_String, orb_true_iff, bool_decide_eq_true.
    intros [->|Hrest].
    + exists "", (String a (String b (String c ""))), s.
      split_and!; [done|done|]. by apply residue_stop.
    + destruct (IH Hrest) as (pre & codon & rest & -> & Hpre & Hstop).
      exists (String a (String b (String c pre))), codon, rest.
      split_and!; [done| |done].
      rewrite !len_String.
      replace (Py.len pre + 1 + 1 + 1) with (Py.len pre + 1 * 3) by lia.
      by rewrite Z.mod_add by lia.
  - intros (pre & codon & rest & -> & Hpre & Hstop).
    apply translation_stop_codon in Hstop as [Hstar Hlen].
    rewrite (translation_app pre) by done.
    rewrite (translation_app codon) by done.
    rewrite Hstar. apply contains_star_app.
Qed.

End stop_symbol.

(** X4. The translation contains the stop symbol exactly when one of the
    triplets TAA, TAG, TGA stands in the sequence at a position that is a
    multiple of three; a stop triplet in another reading frame does not
    count. *)
Theorem translate_sequence_stop_iff (s : string) :
  exists out,
    translate_sequence s = Ok out /\
    (Py.contains "*" out = true <->
     exists pre codon rest,
       s = pre +:+ codon +:+ rest /\ Py.len pre `mod` 3 = 0 /\
       codon ∈ stop_codons).
Proof.
  exists (translation s).
  split; [apply translate_sequence_translation | apply translation_stop_iff].
Qed.

(** ** Invariants of the rows that survive *)

(** X5. When out-of-frame sequences are not imported, every row of the
    result has [is_inframe == "1"]. *)
Theorem is_inframe_invariant (st : SequenceType) (df : DataFrame)
    (params : DatasetImportParams) (df' : DataFrame) :
  import_out_of_frame params = false ->
  preprocess_dataframe st df params = Ok df' ->
  Forall (fun r' : gmap string value => r' !! "is_inframe" = Some (VStr "1"))
         (rows df').
Proof.
  intros Hoof Hok. apply preprocess_dataframe_Ok in Hok as (_ & Hrows & _).
  rewrite Hrows. apply Forall_omap. intros r r' _ Hr.
  apply row_outcome_Some in Hr as [-> Hp].
  apply passes_filters_inv in Hp as (_ & Hf & _). specialize (Hf Hoof).
  rewrite lookup_finish_row by done.
  unfold inframe_ok in Hf. rewrite lookup_default_counts_row in Hf by done.
  by apply bool_decide_eq_true in Hf.
Qed.

Lemma is_inframe_invariant_witness :
  import_out_of_frame (params_with_stop_codon IMGT_CDR3) = false /\
  preprocess_dataframe AMINO_ACID example_table
    (params_with_stop_codon IMGT_CDR3)
  = Ok {| columns := example_out_columns; rows := [example_row_stop_out] |} /\
  Forall (fun r' : gmap string value => r' !! "is_inframe" = Some (VStr "1"))
         [example_row_stop_out].
Proof.
  assert (Hok : preprocess_dataframe AMINO_ACID example_table
                  (params_with_stop_codon IMGT_CDR3)
                = Ok {| columns := example_out_columns;
                        rows := [example_row_stop_out] |})
    by (vm_compute; reflexivity).
  split_and!; [reflexivity | exact Hok |].
  exact (is_inframe_invariant AMINO_ACID example_table
           (params_with_stop_codon IMGT_CDR3) _ eq_refl Hok).
Defined.

(** X6. Every row of the result carries the name of the configured region
    type in [region_types], whatever the column held before, and the
    result has that column. *)
Theorem region_types_overwritten (st : SequenceType) (df : DataFrame)
    (params : DatasetImportParams) (df' : DataFrame) :
  preprocess_dataframe st df params = Ok df' ->
  "region_types" ∈ columns df' /\
  Forall (fun r' : gmap string value =>
            r' !! "region_types" = Some (VStr (name (region_type params))))
         (rows df').
Proof.
  intros Hok. apply preprocess_dataframe_Ok in Hok as (Hcols & Hrows & _).
  split.
  - rewrite Hcols, elem_of_out_columns. by left.
  - rewrite Hrows. apply Forall_omap. intros r r' _ Hr.
    apply row_outcome_Some in Hr as [-> _].
    unfold finish_row, region_row. by rewrite lookup_set_cell, decide_True.
Qed.

Lemma region_types_overwritten_witness :
  preprocess_dataframe AMINO_ACID junction_table params_junction
  = Ok {| columns := example_out_columns; rows := [junction_row_kept] |} /\
  "region_types" ∈ example_out_columns /\
  Forall (fun r' : gmap string value =>
            r' !! "region_types" = Some (VStr "IMGT_JUNCTION"))
         [junction_row_kept].
Proof.
  assert (Hok : preprocess_dataframe AMINO_ACID junction_table params_junction
                = Ok {| columns := example_out_columns;
                        rows := [junction_row_kept] |})
    by (vm_compute; reflexivity).
  split; [exact Hok|].
  exact (region_types_overwritten AMINO_ACID junction_table params_junction
           _ Hok).
Defined.

(** ** Which exception for which defect *)

Section raising.

Context (params : DatasetImportParams) (has : bool).

Lemma forallb_false_Exists {A : Type} (f : A -> bool) (l : list A) :
  forallb f l = false <-> Exists (fun x => f x = false) l.
Proof.
  induction l as [|x l IH]; cbn [forallb].
  - split; [done|]. by intros ?%Exists_nil.
  - rewrite andb_false_iff, Exists_cons, IH. done.
Qed.

Lemma forallb_selected_false (l : list (gmap string value)) :
  forallb has_nt_string (selected params has l) = false <->
  Exists (fun r : gmap string value =>
            needs_translation params r = true /\ has_nt_string r = false) l.
Proof.
  rewrite forallb_selected, forallb_false_Exists, !Exists_exists.
  split; intros (r & Hin & Hr); exists r; split; try done.
  - by rewrite orb_false_iff, negb_false_iff in Hr.
  - by rewrite orb_false_iff, negb_false_iff.
Qed.

Lemma Raise_eq_iff {A : Type} (e1 e2 : exn) :
  @Raise A e1 = Raise e2 <-> e2 = e1.
Proof. split; [by intros [= ->] | by intros ->]. Qed.

Lemma forallb_negb_Forall {A : Type} (f : A -> bool) (l : list A) :
  forallb (fun x => negb (f x)) l = true <-> Forall (fun x => f x = false) l.
Proof.
  induction l as [|x l IH]; cbn [forallb].
  - split; [by constructor | done].
  - rewrite andb_true_iff, Forall_cons, IH, negb_true_iff. done.
Qed.

Lemma empty_frame_error_true (cols : list string)
    (l : list (gmap string value)) :
  empty_frame_error params has cols l = true <->
  Forall (fun r : gmap string value => row_kept params r = false) l /\
  ("region_types" ∉ cols
   \/ (import_with_stop_codon params = false /\
       Forall (fun r : gmap string value =>
                 needs_translation params r = false) l)).
Proof.
  rewrite empty_frame_error_eq, andb_true_iff, orb_true_iff, andb_true_iff.
  rewrite !forallb_negb_Forall, !negb_true_iff, bool_decide_eq_false.
  done.
Qed.

End raising.

(** X7. [preprocess_dataframe] raises in five cases only, checked in this
    order: [AttributeError] for a missing [anchors_found] column;
    [AttributeError] for a missing [is_inframe] column when out-of-frame
    sequences are not imported; [KeyError] for a missing [sequences]
    column; [TypeError] when a row that passes the anchor and frame filters
    has no nucleotide string (a missing value or a number); [ValueError]
    when no row is left in the table at the assignment of [region_types]
    and that column is new: the table came without it, or the stop-codon
    filter met a table without rows and selected no column. A row without
    a nucleotide string that the filters drop does no harm. *)
Theorem preprocess_dataframe_raises (st : SequenceType) (df : DataFrame)
    (params : DatasetImportParams) (e : exn) :
  preprocess_dataframe st df params = Raise e <->
  (e = AttributeError "anchors_found" /\ "anchors_found" ∉ columns df)
  \/ (e = AttributeError "is_inframe" /\ "anchors_found" ∈ columns df /\
      import_out_of_frame params = false /\ "is_inframe" ∉ columns df)
  \/ (e = KeyError "sequences" /\ "anchors_found" ∈ columns df /\
      (import_out_of_frame params = false -> "is_inframe" ∈ columns df) /\
      "sequences" ∉ columns df)
  \/ (e = TypeError "len" /\ "anchors_found" ∈ columns df /\
      (import_out_of_frame params = false -> "is_inframe" ∈ columns df) /\
      "sequences" ∈ columns df /\
      Exists (fun r : gmap string value =>
                needs_translation params r = true /\ has_nt_string r = false)
             (rows df))
  \/ (e = ValueError Pd.no_index_message /\ "anchors_found" ∈ columns df /\
      (import_out_of_frame params = false -> "is_inframe" ∈ columns df) /\
      "sequences" ∈ columns df /\
      ~ Exists (fun r : gmap string value =>
                  needs_translation params r = true /\ has_nt_string r = false)
               (rows df) /\
      Forall (fun r : gmap string value => row_kept params r = false)
             (rows df) /\
      ("region_types" ∉ columns df
       \/ (import_with_stop_codon params = false /\
           Forall (fun r : gmap string value =>
                     needs_translation params r = false) (rows df)))).
Proof.
  rewrite preprocess_dataframe_eq.
  destruct (bool_decide_reflect ("anchors_found" ∈ columns df)) as [Ha|Ha];
    cbn [negb]; [|rewrite Raise_eq_iff; intuition (subst; try congruence; auto)].
  destruct (import_out_of_frame params) eqn:Hoof;
    destruct (bool_decide_reflect ("is_inframe" ∈ columns df)) as [Hf|Hf];
    cbn [negb andb]; try (rewrite Raise_eq_iff; intuition (subst; try congruence; auto)).
  all: destruct (bool_decide_reflect ("sequences" ∈ columns df)) as [Hs|Hs];
    cbn [negb]; try (rewrite Raise_eq_iff; intuition (subst; try congruence; auto)).
  all: destruct (forallb has_nt_string _) eqn:Hstr.
  all: try (apply forallb_selected_false in Hstr;
            rewrite Raise_eq_iff; intuition (subst; try congruence; auto)).
  all: assert (Hnone : ~ Exists (fun r : gmap string value =>
                           needs_translation params r = true /\
                           has_nt_string r = false) (rows df))
         by (rewrite <- forallb_selected_false, Hstr; discriminate).
  all: destruct (empty_frame_error _ _ _ _) eqn:Hempty.
  all: try (apply empty_frame_error_true in Hempty;
            rewrite Raise_eq_iff; intuition (subst; try congruence; auto)).
  all: assert (Hleft : ~ (Forall (fun r : gmap string value =>
                                    row_kept params r = false) (rows df) /\
                          ("region_types" ∉ columns df
                           \/ (import_with_stop_codon params = false /\
                               Forall (fun r : gmap string value =>
                                         needs_translation params r = false)
                                      (rows df)))))
         by (rewrite <- (empty_frame_error_true params (has_counts df)), Hempty;
             discriminate).
  all: split; [done | intuition (subst; try congruence; auto)].
Qed.

Lemma preprocess_dataframe_raises_witness :
  preprocess_dataframe AMINO_ACID nan_selected_table default_params
  = Raise (TypeError "len") /\
  Exists (fun r : gmap string value =>
            needs_translation default_params r = true /\
            has_nt_string r = false)
         (rows nan_selected_table).
Proof.
  assert (Hr : preprocess_dataframe AMINO_ACID nan_selected_table default_params
               = Raise (TypeError "len"))
    by (vm_compute; reflexivity).
  split; [exact Hr|].
  destruct (proj1 (preprocess_dataframe_raises AMINO_ACID nan_selected_table
                     default_params (TypeError "len")) Hr)
    as [[He _]|[[He _]|[[He _]|[(_ & _ & _ & _ & Hex)|[He _]]]]];
    [discriminate He | discriminate He | discriminate He | exact Hex
    | discriminate He].
Defined.

(** ** Rows are treated one by one *)

(** X8. The pipeline treats the rows independently and keeps their order:
    when it returns a table for the rows [l1] and a table for the rows
    [l2], under the same columns, it returns for [l1] followed by [l2] the
    rows of the first table followed by the rows of the second. *)
Theorem preprocess_dataframe_app (st : SequenceType) (cols : list string)
    (l1 l2 : list (gmap string value)) (params : DatasetImportParams)
    (d1 d2 : DataFrame) :
  preprocess_dataframe st {| columns := cols; rows := l1 |} params = Ok d1 ->
  preprocess_dataframe st {| columns := cols; rows := l2 |} params = Ok d2 ->
  preprocess_dataframe st {| columns := cols; rows := l1 ++ l2 |} params
  = Ok {| columns := columns d1; rows := rows d1 ++ rows d2 |}.
Proof.
  intros Hok1 Hok2.
  pose proof (preprocess_dataframe_Ok_kept _ _ _ _ Hok1) as He1.
  apply preprocess_dataframe_Ok in Hok1 as (Hc1 & Hr1 & Ha & Hs & Hf & Hstr1).
  apply preprocess_dataframe_Ok in Hok2 as (_ & Hr2 & _ & _ & _ & Hstr2).
  rewrite preprocess_dataframe_eq.
  unfold has_counts, Pd.has_column in *. cbn [columns rows] in *.
  rewrite (bool_decide_eq_true_2 _ Ha), (bool_decide_eq_true_2 _ Hs).
  cbn [negb].
  assert (negb (import_out_of_frame params)
          && negb (bool_decide ("is_inframe" ∈ cols)) = false) as ->.
  { destruct (import_out_of_frame params); [done|]. cbn [negb andb].
    by rewrite bool_decide_eq_true_2 by auto. }
  rewrite selected_app, forallb_app, Hstr1, Hstr2. cbn [andb].
  assert (empty_frame_error params (bool_decide ("counts" ∈ cols)) cols
            (l1 ++ l2) = false) as ->.
  { rewrite empty_frame_error_eq in *. rewrite !forallb_app.
    destruct (forallb (fun r => negb (row_kept params r)) l1);
      cbn [andb] in *; [|done].
    rewrite orb_false_iff in He1. destruct He1 as [-> Hsel].
    cbn [orb]. rewrite andb_false_iff in Hsel.
    destruct Hsel as [->| ->]; cbn [andb]; by rewrite ?andb_false_r. }
  rewrite pipeline_rows_app, !pipeline_rows_omap.
  by rewrite Hc1, Hr1, Hr2.
Qed.

Lemma preprocess_dataframe_app_witness :
  preprocess_dataframe AMINO_ACID
    {| columns := columns mixed_table; rows := [junction_row] |}
    (params_with_stop_codon IMGT_CDR3)
  = Ok {| columns := example_out_columns; rows := [junction_row_out] |} /\
  preprocess_dataframe AMINO_ACID
    {| columns := columns mixed_table; rows := [example_row_stop] |}
    (params_with_stop_codon IMGT_CDR3)
  = Ok {| columns := example_out_columns; rows := [example_row_stop_out] |} /\
  preprocess_dataframe AMINO_ACID
    {| columns := columns mixed_table;
       rows := [junction_row] ++ [example_row_stop] |}
    (params_with_stop_codon IMGT_CDR3)
  = Ok {| columns := example_out_columns;
          rows := [junction_row_out] ++ [example_row_stop_out] |}.
Proof.
  assert (Hok1 : preprocess_dataframe AMINO_ACID
                   {| columns := columns mixed_table; rows := [junction_row] |}
                   (params_with_stop_codon IMGT_CDR3)
                 = Ok {| columns := example_out_columns;
                         rows := [junction_row_out] |})
    by (vm_compute; reflexivity).
  assert (Hok2 : preprocess_dataframe AMINO_ACID
                   {| columns := columns mixed_table;
                      rows := [example_row_stop] |}
                   (params_with_stop_codon IMGT_CDR3)
                 = Ok {| columns := example_out_columns;
                         rows := [example_row_stop_out] |})
    by (vm_compute; reflexivity).
  split_and!; [exact Hok1 | exact Hok2 |].
  exact (preprocess_dataframe_app AMINO_ACID (columns mixed_table)
           [junction_row] [example_row_stop]
           (params_with_stop_codon IMGT_CDR3) _ _ Hok1 Hok2).
Defined.

(** ** The stop-codon flag only adds rows *)

Section stop_flag.

Lemma sublist_omap {A B : Type} (f g : A -> option B) (l : list A) :
  (forall x y, f x = Some y -> g x = Some y) ->
  omap f l `sublist_of` omap g l.
Proof.
  intros Hfg. induction l as [|x l IH]; [done|].
  cbn [omap list_omap].
  destruct (f x) as [y|] eqn:Hfx.
  - rewrite (Hfg _ _ Hfx). by apply sublist_skip.
  - destruct (g x); [by apply sublist_cons | done].
Qed.

Lemma row_outcome_with_stop_codon st params has (r r' : gmap string value) :
  row_outcome st (with_stop_codon false params) has r = Some r' ->
  row_outcome st (with_stop_codon true params) has r = Some r'.
Proof.
  rewrite !row_outcome_eq.
  change (finish_row (with_stop_codon false params) has r)
    with (finish_row (with_stop_codon true params) has r).
  unfold passes_filters. cbn [with_stop_codon import_with_stop_codon
    import_out_of_frame negb orb].
  change (finish_row (with_stop_codon true params) has r)
    with (finish_row params has r).
  change (nonempty_ok (with_stop_codon true params))
    with (nonempty_ok params).
  change (nonempty_ok (with_stop_codon false params))
    with (nonempty_ok params).
  change (legal_ok st (with_stop_codon true params))
    with (legal_ok st params).
  change (legal_ok st (with_stop_codon false params))
    with (legal_ok st params).
  destruct (anchors_ok _); cbn [andb]; [|done].
  destruct (import_out_of_frame params || inframe_ok _); cbn [andb]; [|done].
  by destruct (stop_free _).
Qed.

Lemma forallb_impl {A : Type} (f g : A -> bool) (l : list A) :
  (forall x, f x = true -> g x = true) ->
  forallb f l = true -> forallb g l = true.
Proof.
  intros Hfg. rewrite !forallb_forall. auto.
Qed.

Lemma empty_frame_error_with_stop_codon params has (cols : list string)
    (l : list (gmap string value)) :
  empty_frame_error (with_stop_codon false params) has cols l = false ->
  empty_frame_error (with_stop_codon true params) has cols l = false.
Proof.
  rewrite !empty_frame_error_eq.
  cbn [with_stop_codon import_with_stop_codon negb andb].
  rewrite orb_false_r. intros Hfalse.
  destruct (forallb (fun r => negb (row_kept (with_stop_codon true params) r))
              l) eqn:Hkept; [|done].
  assert (Hsel : forallb (fun r => negb (needs_translation
                                           (with_stop_codon false params) r))
                   l = true).
  { revert Hkept. apply forallb_impl. intros r.
    unfold row_kept, stop_codon_ok.
    cbn [with_stop_codon import_with_stop_codon orb].
    by rewrite andb_true_r. }
  assert (Hnone : forallb (fun r => negb (row_kept
                                            (with_stop_codon false params) r))
                    l = true).
  { revert Hsel. apply forallb_impl. intros r. unfold row_kept.
    rewrite !negb_true_iff. by intros ->. }
  rewrite Hnone, Hsel, orb_true_r in Hfalse. discriminate.
Qed.

End stop_flag.

(** X9. Importing sequences with stop codons only adds rows: when the run
    without [import_with_stop_codon] returns a table, the run with it
    returns one too, with the same columns, and the rows of the first are,
    in the same order, among the rows of the second. *)
Theorem import_with_stop_codon_monotone (st : SequenceType) (df : DataFrame)
    (params : DatasetImportParams) (d1 : DataFrame) :
  preprocess_dataframe st df (with_stop_codon false params) = Ok d1 ->
  exists d2,
    preprocess_dataframe st df (with_stop_codon true params) = Ok d2 /\
    columns d2 = columns d1 /\
    rows d1 `sublist_of` rows d2.
Proof.
  intros Hok.
  pose proof (preprocess_dataframe_Ok_kept _ _ _ _ Hok) as Hempty.
  apply empty_frame_error_with_stop_codon in Hempty.
  apply preprocess_dataframe_Ok in Hok as (Hcols & Hrows & Ha & Hs & Hf & Hstr).
  rewrite preprocess_dataframe_eq, Hempty.
  change (selected (with_stop_codon true params))
    with (selected (with_stop_codon false params)).
  rewrite Hstr.
  cbn [with_stop_codon import_out_of_frame] in *.
  rewrite (bool_decide_eq_true_2 _ Ha), (bool_decide_eq_true_2 _ Hs).
  cbn [negb].
  assert (negb (import_out_of_frame params)
          && negb (bool_decide ("is_inframe" ∈ columns df)) = false) as ->.
  { destruct (import_out_of_frame params); [done|]. cbn [negb andb].
    by rewrite bool_decide_eq_true_2 by auto. }
  eexists. split; [done|]. cbn [columns rows]. split; [done|].
  rewrite Hrows, pipeline_rows_omap. apply sublist_omap.
  intros r r'. apply row_outcome_with_stop_codon.
Qed.

Lemma import_with_stop_codon_monotone_witness :
  preprocess_dataframe AMINO_ACID mixed_table
    (with_stop_codon false default_params)
  = Ok {| columns := example_out_columns; rows := [junction_row_out] |} /\
  exists d2,
    preprocess_dataframe AMINO_ACID mixed_table
      (with_stop_codon true default_params) = Ok d2 /\
    columns d2 = example_out_columns /\
    [junction_row_out] `sublist_of` rows d2.
Proof.
  assert (Hok : preprocess_dataframe AMINO_ACID mixed_table
                  (with_stop_codon false default_params)
                = Ok {| columns := example_out_columns;
                        rows := [junction_row_out] |})
    by (vm_compute; reflexivity).
  split; [exact Hok|].
  exact (import_with_stop_codon_monotone AMINO_ACID mixed_table
           default_params _ Hok).
Defined.

(** ** The derived columns are written, never read *)

Section derived.

Context (st : SequenceType) (params : DatasetImportParams) (has : bool).

Lemma finish_row_same_input (r1 r2 : gmap string value) :
  same_input r1 r2 -> finish_row params has r1 = finish_row params has r2.
Proof.
  intros Hsame. apply map_eq. intros k.
  unfold finish_row, region_row, trim_row, translate_row, default_counts_row.
  destruct (bool_decide (region_type params = IMGT_CDR3)), has;
    repeat (rewrite !lookup_set_cell; repeat case_decide; simplify_eq;
            try done);
    rewrite ?Hsame by done; try done.
Qed.

Lemma passes_filters_same_input check (r1 r2 : gmap string value) :
  same_input r1 r2 ->
  passes_filters st params has check r1 = passes_filters st params has check r2.
Proof.
  intros Hsame. unfold passes_filters.
  rewrite (finish_row_same_input r1 r2) by done.
  unfold anchors_ok, inframe_ok, stop_free, translate_row.
  rewrite !lookup_set_cell, !decide_True by done.
  rewrite !lookup_default_counts_row by done.
  by rewrite !(Hsame _) by done.
Qed.

Lemma row_outcome_same_input (r1 r2 : gmap string value) :
  same_input r1 r2 ->
  row_outcome st params has r1 = row_outcome st params has r2.
Proof.
  intros Hsame. rewrite !row_outcome_eq.
  by rewrite (passes_filters_same_input _ r1 r2),
    (finish_row_same_input r1 r2).
Qed.

Lemma pipeline_rows_same_input (l1 l2 : list (gmap string value)) :
  Forall2 same_input l1 l2 ->
  pipeline_rows st params has l1 = pipeline_rows st params has l2.
Proof.
  intros Hl. rewrite !pipeline_rows_omap.
  induction Hl as [|r1 r2 l1 l2 Hr Hl IH]; [done|].
  cbn [omap list_omap]. by rewrite (row_outcome_same_input r1 r2), IH.
Qed.

Lemma forallb_selected_same_input (l1 l2 : list (gmap string value)) :
  Forall2 same_input l1 l2 ->
  forallb has_nt_string (selected params has l1)
  = forallb has_nt_string (selected params has l2).
Proof.
  intros Hl. rewrite !forallb_selected.
  induction Hl as [|r1 r2 l1 l2 Hr Hl IH]; [done|].
  cbn [forallb]. rewrite IH. f_equal.
  unfold needs_translation, anchors_ok, inframe_ok, has_nt_string.
  by rewrite !(Hr _) by done.
Qed.

Lemma row_kept_same_input (r1 r2 : gmap string value) :
  same_input r1 r2 -> row_kept params r1 = row_kept params r2.
Proof.
  intros Hr.
  unfold row_kept, needs_translation, stop_codon_ok, anchors_ok, inframe_ok,
    stop_free, translate_row.
  rewrite !lookup_set_cell, !decide_True by done.
  by rewrite !(Hr _) by done.
Qed.

Lemma empty_frame_error_same_input (cols : list string)
    (l1 l2 : list (gmap string value)) :
  Forall2 same_input l1 l2 ->
  empty_frame_error params has cols l1 = empty_frame_error params has cols l2.
Proof.
  intros Hl. rewrite !empty_frame_error_eq.
  assert (forallb (fun r => negb (row_kept params r)) l1
          = forallb (fun r => negb (row_kept params r)) l2) as ->.
  { induction Hl as [|r1 r2 l1 l2 Hr Hl IH]; [done|].
    cbn [forallb]. by rewrite IH, (row_kept_same_input r1 r2). }
  assert (forallb (fun r => negb (needs_translation params r)) l1
          = forallb (fun r => negb (needs_translation params r)) l2) as ->;
    [|done].
  induction Hl as [|r1 r2 l1 l2 Hr Hl IH]; [done|].
  cbn [forallb]. rewrite IH. f_equal.
  unfold needs_translation, anchors_ok, inframe_ok.
  by rewrite !(Hr _) by done.
Qed.

End derived.

(** X10. The pipeline never reads the [sequence_aas] and [region_types]
    cells it is given: two tables with the same columns whose rows agree
    on every other column give the same result, table or exception. *)
Theorem derived_columns_ignored (st : SequenceType) (cols : list string)
    (l1 l2 : list (gmap string value)) (params : DatasetImportParams) :
  Forall2 same_input l1 l2 ->
  preprocess_dataframe st {| columns := cols; rows := l1 |} params
  = preprocess_dataframe st {| columns := cols; rows := l2 |} params.
Proof.
  intros Hl. rewrite !preprocess_dataframe_eq.
  unfold has_counts, Pd.has_column. cbn [columns rows].
  by rewrite (forallb_selected_same_input params _ l1 l2),
    (empty_frame_error_same_input params _ cols l1 l2),
    (pipeline_rows_same_input st params _ l1 l2).
Qed.

Lemma derived_columns_ignored_witness :
  Forall2 same_input [stale_row] [junction_row] /\
  preprocess_dataframe AMINO_ACID
    {| columns := derived_columns; rows := [stale_row] |} default_params
  = preprocess_dataframe AMINO_ACID
      {| columns := derived_columns; rows := [junction_row] |} default_params.
Proof.
  assert (Hl : Forall2 same_input [stale_row] [junction_row]).
  { repeat constructor. intros k Haa Hrt. unfold stale_row.
    rewrite lookup_insert_ne by congruence.
    rewrite lookup_insert_ne by congruence. reflexivity. }
  split; [exact Hl|].
  exact (derived_columns_ignored AMINO_ACID derived_columns _ _
           default_params Hl).
Defined.

(** ** The columns of the result *)

Lemma add_column_app (cols : list string) (key : string) :
  Pd.add_column cols key
  = cols ++ (if bool_decide (key ∈ cols) then [] else [key]).
Proof.
  unfold Pd.add_column. destruct (bool_decide (key ∈ cols)); [|done].
  by rewrite app_nil_r.
Qed.

Lemma out_columns_app (cols : list string) :
  out_columns cols
  = cols ++ filter (fun c => c ∉ cols) ["counts"; "sequence_aas"; "region_types"].
Proof.
  unfold out_columns.
  rewrite (add_column_app _ "region_types"), !bool_decide_add_column by done.
  rewrite (add_column_app _ "sequence_aas"), !bool_decide_add_column by done.
  rewrite (add_column_app _ "counts").
  rewrite <- !app_assoc. f_equal.
  rewrite !filter_cons, filter_nil.
  destruct (bool_decide_reflect ("counts" ∈ cols)) as [Hc|Hc],
    (bool_decide_reflect ("sequence_aas" ∈ cols)) as [Ha|Ha],
    (bool_decide_reflect ("region_types" ∈ cols)) as [Hr|Hr];
    repeat match goal with
      | |- context [decide (?k ∉ cols)] => destruct (decide (k ∉ cols))
      end;
    done.
Qed.

(** X11. The result keeps the columns of the input in their order and
    appends, in this order, those of [counts], [sequence_aas] and
    [region_types] that the input did not have. *)
Theorem output_columns (st : SequenceType) (df : DataFrame)
    (params : DatasetImportParams) (df' : DataFrame) :
  preprocess_dataframe st df params = Ok df' ->
  columns df'
  = columns df
    ++ filter (fun c => c ∉ columns df)
              ["counts"; "sequence_aas"; "region_types"].
Proof.
  intros Hok. apply preprocess_dataframe_Ok in Hok as (Hcols & _).
  by rewrite Hcols, out_columns_app.
Qed.

Lemma output_columns_witness :
  preprocess_dataframe AMINO_ACID counted_table default_params
  = Ok {| columns := example_out_columns; rows := [counted_row_out] |} /\
  example_out_columns
  = columns counted_table
    ++ filter (fun c => c ∉ columns counted_table)
              ["counts"; "sequence_aas"; "region_types"].
Proof.
  assert (Hok : preprocess_dataframe AMINO_ACID counted_table default_params
                = Ok {| columns := example_out_columns;
                        rows := [counted_row_out] |})
    by (vm_compute; reflexivity).
  split; [exact Hok|].
  exact (output_columns AMINO_ACID counted_table default_params _ Hok).
Defined.

(** ** The two sequence columns of the result agree *)

Section trimming.

Lemma substring_0_0 s : String.substring 0 0 s = "".
Proof. by destruct s. Qed.

Lemma getslice_neg_tail s j :
  0 < j ->
  Py.getslice s 0 (- j) = String.substring 0 (Z.to_nat (Py.len s - j)) s.
Proof.
  intros Hj. unfold Py.getslice, Py.slice_index.
  pose proof (len_nonneg s).
  destruct (Z.ltb_spec 0 0); [lia|].
  destruct (Z.ltb_spec (- j) 0); [|lia].
  replace (Z.to_nat (Z.min 0 (Py.len s))) with 0%nat by lia.
  f_equal. lia.
Qed.

Lemma getslice_drop3 s :
  Py.getslice s 0 (-3) = String.substring 0 (Z.to_nat (Py.len s - 3)) s.
Proof. exact (getslice_neg_tail s 3 ltac:(lia)). Qed.

Lemma getslice_drop1 s :
  Py.getslice s 0 (-1) = String.substring 0 (Z.to_nat (Py.len s - 1)) s.
Proof. exact (getslice_neg_tail s 1 ltac:(lia)). Qed.

Lemma getslice_codon_trim a b c rest :
  Py.getslice (String a (String b (String c rest))) 3 (-3)
  = Py.getslice rest 0 (-3).
Proof.
  rewrite getslice_drop3.
  unfold Py.getslice, Py.slice_index. rewrite !len_String.
  pose proof (len_nonneg rest).
  destruct (Z.ltb_spec 3 0); [lia|].
  destruct (Z.ltb_spec (-3) 0); [|lia].
  replace (Z.to_nat (Z.min 3 (Py.len rest + 1 + 1 + 1))) with 3%nat by lia.
  cbn [String.substring]. f_equal. lia.
Qed.

Lemma getslice_residue_trim ch t :
  Py.getslice (String ch t) 1 (-1) = Py.getslice t 0 (-1).
Proof.
  rewrite getslice_drop1.
  unfold Py.getslice, Py.slice_index. rewrite !len_String.
  pose proof (len_nonneg t).
  destruct (Z.ltb_spec 1 0); [lia|].
  destruct (Z.ltb_spec (-1) 0); [|lia].
  replace (Z.to_nat (Z.min 1 (Py.len t + 1))) with 1%nat by lia.
  cbn [String.substring]. f_equal. lia.
Qed.

Lemma translation_drop_last s :
  translation (String.substring 0 (Z.to_nat (Py.len s - 3)) s)
  = String.substring 0 (Z.to_nat (Py.len s / 3 - 1)) (translation s).
Proof.
  induction s as [| a | a b | a b c s IH] using string_ind3; try done.
  destruct (residue_symbol (String a (String b (String c ""))))
    as (ch & Hch & _).
  cbn [translation]. rewrite Hch.
  change (String ch "" +:+ ?t) with (String ch t).
  replace (Py.len (String a (String b (String c s))) / 3 - 1)
    with (Py.len s / 3)
    by (rewrite !len_String;
        replace (Py.len s + 1 + 1 + 1) with (1 * 3 + Py.len s) by lia;
        rewrite Z.div_add_l by lia; lia).
  replace (Py.len (String a (String b (String c s))) - 3) with (Py.len s)
    by (rewrite !len_String; lia).
  destruct s as [|x [|y [|z s]]]; try done.
  set (s3 := String x (String y (String z s))) in *.
  assert (Hlen : Py.len s3 = Py.len s + 3)
    by (unfold s3; rewrite !len_String; lia).
  pose proof (len_nonneg s).
  assert (1 <= Py.len s3 / 3).
  { rewrite Hlen. replace (Py.len s + 3) with (1 * 3 + Py.len s) by lia.
    rewrite Z.div_add_l by lia.
    pose proof (Z.div_pos (Py.len s) 3). lia. }
  replace (Z.to_nat (Py.len s3))
    with (S (S (S (Z.to_nat (Py.len s3 - 3))))) by lia.
  replace (Z.to_nat (Py.len s3 / 3))
    with (S (Z.to_nat (Py.len s3 / 3 - 1))) by lia.
  cbn [String.substring translation]. rewrite Hch.
  change (String ch "" +:+ ?t) with (String ch t).
  cbn [String.substring]. by rewrite IH.
Qed.

Lemma translation_trim s :
  translation (Py.getslice s 3 (-3)) = Py.getslice (translation s) 1 (-1).
Proof.
  induction s as [| a | a b | a b c s _] using string_ind3; try done.
  rewrite getslice_codon_trim, getslice_drop3.
  rewrite translation_drop_last.
  destruct (translation_step a b c s) as (ch & _ & ->).
  rewrite getslice_residue_trim, getslice_drop1.
  by rewrite translation_len.
Qed.

Lemma lookup_finish_row_sequences params has (r : gmap string value) :
  finish_row params has r !! "sequences"
  = if bool_decide (region_type params = IMGT_CDR3)
    then Pd.str_getslice 3 (-3) (default_counts_row has r !! "sequences")
    else default_counts_row has r !! "sequences".
Proof.
  unfold finish_row, region_row, trim_row, translate_row.
  destruct (bool_decide (region_type params = IMGT_CDR3));
    repeat (rewrite lookup_set_cell; case_decide; try done).
Qed.

Lemma lookup_finish_row_sequence_aas params has (r : gmap string value) :
  finish_row params has r !! "sequence_aas"
  = if bool_decide (region_type params = IMGT_CDR3)
    then Pd.str_getslice 1 (-1)
           (aa_cell (default_counts_row has r !! "sequences"))
    else aa_cell (default_counts_row has r !! "sequences").
Proof.
  unfold finish_row, region_row, trim_row, translate_row.
  destruct (bool_decide (region_type params = IMGT_CDR3));
    repeat (rewrite lookup_set_cell; case_decide; try done).
Qed.

End trimming.

(** X12. In every row of the result the amino-acid sequence is the
    translation of the nucleotide sequence of that same row, also after the
    region trimming has cut both. *)
Theorem output_sequences_agree (st : SequenceType) (df : DataFrame)
    (params : DatasetImportParams) (df' : DataFrame) :
  preprocess_dataframe st df params = Ok df' ->
  Forall (fun r' : gmap string value =>
            exists nt aa,
              r' !! "sequences" = Some (VStr nt) /\
              translate_sequence nt = Ok aa /\
              r' !! "sequence_aas" = Some (VStr aa))
         (rows df').
Proof.
  intros Hok.
  apply preprocess_dataframe_Ok in Hok as (_ & Hrows & _ & _ & _ & Hstr).
  rewrite Hrows. apply Forall_omap. intros r r' Hin Hr.
  apply row_outcome_Some in Hr as [-> Hp].
  apply passes_filters_inv in Hp as (Hanch & Hfr & _).
  assert (Hnt : has_nt_string (default_counts_row (has_counts df) r) = true).
  { rewrite forallb_forall in Hstr. apply Hstr, list_elem_of_In.
    apply elem_of_selected. by exists r. }
  unfold has_nt_string in Hnt.
  destruct (default_counts_row (has_counts df) r !! "sequences")
    as [[s|z]|] eqn:Hs; try done.
  rewrite lookup_finish_row_sequences, lookup_finish_row_sequence_aas, Hs.
  cbn [aa_cell Pd.str_getslice].
  destruct (bool_decide (region_type params = IMGT_CDR3)).
  - exists (Py.getslice s 3 (-3)), (Py.getslice (translation s) 1 (-1)).
    by rewrite translate_sequence_translation, translation_trim.
  - exists s, (translation s).
    by rewrite translate_sequence_translation.
Qed.

Lemma output_sequences_agree_witness :
  preprocess_dataframe AMINO_ACID junction_table default_params
  = Ok {| columns := example_out_columns; rows := [junction_row_out] |} /\
  Forall (fun r' : gmap string value =>
            exists nt aa,
              r' !! "sequences" = Some (VStr nt) /\
              translate_sequence nt = Ok aa /\
              r' !! "sequence_aas" = Some (VStr aa))
         [junction_row_out].
Proof.
  assert (Hok : preprocess_dataframe AMINO_ACID junction_table default_params
                = Ok {| columns := example_out_columns;
                        rows := [junction_row_out] |})
    by (vm_compute; reflexivity).
  split; [exact Hok|].
  exact (output_sequences_agree AMINO_ACID junction_table default_params
           _ Hok).
Defined.

(** ** The frame flag *)

Section frame_flag.

Lemma row_outcome_with_out_of_frame st params has (r r' : gmap string value) :
  row_outcome st (with_out_of_frame false params) has r = Some r' ->
  row_outcome st (with_out_of_frame true params) has r = Some r'.
Proof.
  rewrite !row_outcome_eq.
  change (finish_row (with_out_of_frame false params) has r)
    with (finish_row (with_out_of_frame true params) has r).
  unfold passes_filters, nonempty_ok, legal_ok.
  cbn [with_out_of_frame import_with_stop_codon import_out_of_frame
       import_empty_nt_sequences import_illegal_characters orb].
  destruct (anchors_ok _); cbn [andb]; [|done].
  by destruct (inframe_ok _).
Qed.

Lemma forallb_selected_with_out_of_frame params has
    (l : list (gmap string value)) :
  forallb has_nt_string (selected (with_out_of_frame true params) has l) = true ->
  forallb has_nt_string (selected (with_out_of_frame false params) has l) = true.
Proof.
  rewrite !forallb_selected. rewrite !forallb_forall.
  intros Hall r Hin. specialize (Hall r Hin).
  unfold needs_translation in *.
  cbn [with_out_of_frame import_out_of_frame orb] in *.
  destruct (anchors_ok r); cbn [andb negb orb] in *; [|done].
  rewrite Hall. apply orb_true_r.
Qed.

End frame_flag.

(** X13. Leaving out-of-frame sequences out only removes rows: when the
    table has an [is_inframe] column, the run that imports out-of-frame
    sequences returns a table, and one row passes the anchor, frame and
    stop-codon filters, the run that does not import them returns a table
    as well, with the same columns, and its rows are, in the same order,
    among the rows of the other. *)
Theorem import_out_of_frame_monotone (st : SequenceType) (df : DataFrame)
    (params : DatasetImportParams) (d2 : DataFrame) :
  "is_inframe" ∈ columns df ->
  preprocess_dataframe st df (with_out_of_frame true params) = Ok d2 ->
  Exists (fun r : gmap string value =>
            row_kept (with_out_of_frame false params) r = true) (rows df) ->
  exists d1,
    preprocess_dataframe st df (with_out_of_frame false params) = Ok d1 /\
    columns d1 = columns d2 /\
    rows d1 `sublist_of` rows d2.
Proof.
  intros Hf Hok Hkept.
  apply preprocess_dataframe_Ok in Hok as (Hcols & Hrows & Ha & Hs & _ & Hstr).
  rewrite preprocess_dataframe_eq.
  rewrite (bool_decide_eq_true_2 _ Ha), (bool_decide_eq_true_2 _ Hf),
    (bool_decide_eq_true_2 _ Hs).
  rewrite andb_false_r. cbn [negb].
  rewrite (forallb_selected_with_out_of_frame _ _ _ Hstr).
  rewrite (empty_frame_error_kept _ _ _ _ Hkept).
  eexists. split; [done|]. cbn [columns rows]. split; [done|].
  rewrite Hrows, pipeline_rows_omap. apply sublist_omap.
  intros r r'. apply row_outcome_with_out_of_frame.
Qed.

Lemma import_out_of_frame_monotone_witness :
  "is_inframe" ∈ columns framed_table /\
  preprocess_dataframe AMINO_ACID framed_table
    (with_out_of_frame true default_params)
  = Ok {| columns := example_out_columns;
          rows := [junction_row_out; out_of_frame_row_out] |} /\
  Exists (fun r : gmap string value =>
            row_kept (with_out_of_frame false default_params) r = true)
         (rows framed_table) /\
  exists d1,
    preprocess_dataframe AMINO_ACID framed_table
      (with_out_of_frame false default_params) = Ok d1 /\
    columns d1 = example_out_columns /\
    rows d1 `sublist_of` [junction_row_out; out_of_frame_row_out].
Proof.
  assert (Hf : "is_inframe" ∈ columns framed_table)
    by (apply (bool_decide_unpack _); vm_compute; exact I).
  assert (Hok : preprocess_dataframe AMINO_ACID framed_table
                  (with_out_of_frame true default_params)
                = Ok {| columns := example_out_columns;
                        rows := [junction_row_out; out_of_frame_row_out] |})
    by (vm_compute; reflexivity).
  assert (Hkept : Exists (fun r : gmap string value =>
                      row_kept (with_out_of_frame false default_params) r
                      = true) (rows framed_table))
    by (apply Exists_cons_hd; vm_compute; reflexivity).
  split_and!; [exact Hf | exact Hok | exact Hkept |].
  exact (import_out_of_frame_monotone AMINO_ACID framed_table default_params
           _ Hf Hok Hkept).
Defined.
